(** * Classroom engagement dashboard: the analysis-and-fusion core

  A shallow embedding of [Speech_analyzer.py] (pace and tone classifiers,
  speech nudge generator) and of [app.py] (engagement scorer, shared
  dashboard record, the student loop and the speech-analysis endpoint),
  followed by the properties of the specification stated over it.

  Conventions of the embedding.
  - Python [float] values are exact rationals ([Q]); comparisons of a
    float with an integer literal are exact in Python, so threshold tests
    are the same function on every finite float. The rounding of float
    arithmetic is not modelled: the three divisions of [_analyze_pace],
    numpy's float32 means and the float literals 0.01, 0.02, 0.05, 0.1
    and 0.15 are exact here, so at and next to a threshold the program
    can land in the neighbouring band. The properties below are the
    ones that do not depend on it: membership and range of results,
    consistency of fields, order, invariants, failure paths, and values
    at which the float computation is exact.
  - Python [int] values are [Z]; [str] values are [string] (UTF-8 bytes).
  - A call that may raise returns an [outcome]; only subclasses of
    [Exception] are modelled, which is what the handlers of the program
    catch.
  - Each [with data_lock:] block is one atomic step of the thread that
    executes it; everything between two such blocks (camera, microphone,
    network) is a separate step whose result is supplied by the
    environment. *)

From Stdlib Require Import ZArith QArith Qround Qabs Bool List String Ascii Lia.
From Stdlib Require Import DecimalString DecimalPos DecimalZ Lqa.
Import ListNotations.

Local Open Scope string_scope.
Local Open Scope Z_scope.

(** ** Python values and exceptions *)

Module Py.

(** The exception classes the program distinguishes. *)
Inductive exn : Type :=
| UnknownValueError                (* sr.UnknownValueError *)
| RequestError (msg : string)      (* sr.RequestError *)
| ZeroDivisionError
| Exception (msg : string).        (* any other subclass of Exception *)

(** [str(e)] *)
Definition str_exn (e : exn) : string :=
  match e with
  | UnknownValueError => ""
  | RequestError msg => msg
  | ZeroDivisionError => "float division by zero"
  | Exception msg => msg
  end.

Inductive outcome (A : Type) : Type :=
| Returned (a : A)
| Raised (e : exn).
Arguments Returned {A} a.
Arguments Raised {A} e.

(** [x in [a, b, c]] on strings *)
Definition str_in (x : string) (l : list string) : bool :=
  existsb (String.eqb x) l.

(** [str(n)] for an [int] *)
Definition str_int (n : Z) : string := NilZero.string_of_int (Z.to_int n).

(** [sep.join(l)] *)
Definition join (sep : string) (l : list string) : string :=
  String.concat sep l.

(** [x < y] and [x > y] on floats *)
Definition ltb (x y : Q) : bool := negb (Qle_bool y x).
Definition gtb (x y : Q) : bool := ltb y x.

(** [int(x)]: truncation towards zero *)
Definition int (x : Q) : Z := Z.quot (Qnum x) (Z.pos (Qden x)).

(** Arithmetic that can raise, with a record of the operations carried
    out: a computation yields the list of divisions it evaluated and
    either a value or the exception that stopped it. *)
Inductive op : Type :=
| Div (num den : Q).

Definition M (A : Type) : Type := (list op * outcome A)%type.

Definition ret {A} (a : A) : M A := ([], Returned a).

Definition bind {A B} (m : M A) (f : A -> M B) : M B :=
  match m with
  | (l, Returned a) => let (l', r) := f a in ((l ++ l')%list, r)
  | (l, Raised e) => (l, Raised e)
  end.

Definition lift {A} (o : outcome A) : M A := ([], o).

(** [num / den] on floats and ints: raises on a zero divisor. *)
Definition truediv (num den : Q) : M Q :=
  ([Div num den],
   if Qeq_bool den 0 then Raised ZeroDivisionError else Returned (num / den)%Q).

Definition ops {A} (m : M A) : list op := fst m.
Definition result {A} (m : M A) : outcome A := snd m.

End Py.

Import Py.

Notation "x <- m ;; k" := (Py.bind m (fun x => k))
(at level 61, m at next level, right associativity).

(** ** Speech_analyzer.py *)

Module PaceResult.
(** The dict returned by [_analyze_pace]. *)
Record t : Type := mk { status : string; wpm : Z; word_count : Z }.
End PaceResult.

Module ToneResult.
(** The dict returned by [_analyze_tone]. *)
Record t : Type := mk {
  status : string;
  energy : Q;
  energy_status : string;
  pitch_variation : Q;
  monotone : bool }.
End ToneResult.

Module SpeechResult.
(** The dict returned by [analyze_teacher_speech]. *)
Record t : Type := mk {
  pace : string;
  wpm : Z;
  tone : string;
  energy : Q;
  pitch_variation : Q;
  nudge : string }.
End SpeechResult.

Module SpeechAnalyzer.

(** What [librosa.load(audio_file, sr=None)] gives [_analyze_pace]:
    [len(y)] and the native sample rate. *)
Record loaded : Type := mkLoaded { len_y : Z; sample_rate : Z }.

(** What numpy and librosa give [_analyze_tone]: [np.mean(rms)], the
    number of voiced pitch frames, and their mean and standard
    deviation. *)
Record features : Type := mkFeatures {
  rms_mean : Q;
  voiced : nat;
  mean_pitch : Q;
  std_pitch : Q }.

(** The collaborators of one call of [analyze_teacher_speech]. *)
Record capture : Type := mkCapture {
  record_audio : outcome unit;           (* _record_audio(duration) *)
  recognize : outcome (list string);     (* recognize_google(audio).split() *)
  load : outcome loaded;                 (* librosa.load in _analyze_pace *)
  extract : outcome features }.          (* load, rms, piptrack in _analyze_tone *)

(** Line 140:
    [wpm = word_count / duration_minutes if duration_minutes > 0 else 0] *)
Definition words_per_minute (word_count : Z) (duration_minutes : Q) : M Q :=
  if gtb duration_minutes 0
  then truediv (inject_Z word_count) duration_minutes
  else ret 0%Q.

(** Lines 146-155: the threshold chain. *)
Definition categorize_pace (wpm : Q) : string :=
  if gtb wpm 180 then "too_fast"
  else if gtb wpm 160 then "fast"
  else if ltb wpm 100 then "too_slow"
  else if ltb wpm 120 then "slow"
  else "good".

(** Lines 117-161: the body of the [try] block of [_analyze_pace]. The
    divisions of lines 138 and 140 are exact here and rounded floats in
    the program. *)
Definition analyze_pace_body (c : capture) : M PaceResult.t :=
  words <- lift (recognize c) ;;
  let word_count := Z.of_nat (List.length words) in
  a <- lift (load c) ;;
  seconds <- truediv (inject_Z (len_y a)) (inject_Z (sample_rate a)) ;;
  duration_minutes <- truediv seconds 60 ;;
  wpm <- words_per_minute word_count duration_minutes ;;
  let status := categorize_pace wpm in
  ret (PaceResult.mk status (int wpm) word_count).

(** [_analyze_pace], lines 113-177: the body and its three handlers. *)
Definition _analyze_pace (c : capture) : PaceResult.t :=
  match result (analyze_pace_body c) with
  | Returned r => r
  | Raised UnknownValueError => PaceResult.mk "unclear" 0 0
  | Raised (RequestError _) => PaceResult.mk "error" 0 0
  | Raised _ => PaceResult.mk "error" 0 0
  end.

(** Lines 204-209; exact here, float32 arithmetic in the program. *)
Definition pitch_variation_of (f : features) : Q :=
  if (0 <? voiced f)%nat
  then (std_pitch f / (mean_pitch f + 1 / 1000000))%Q
  else 0%Q.

(** Lines 215-222; the bounds are the exact decimals here, and float
    literals compared with a float32 in the program. *)
Definition categorize_energy (energy : Q) : string :=
  if ltb energy (2 # 100) then "too_quiet"
  else if ltb energy (5 # 100) then "quiet"
  else if gtb energy (15 # 100) then "too_loud"
  else "good".

(** [_analyze_tone], lines 179-250 *)
Definition _analyze_tone (c : capture) : ToneResult.t :=
  match extract c with
  | Returned f =>
      let energy := rms_mean f in
      let pitch_variation := pitch_variation_of f in
      let energy_status := categorize_energy energy in
      if ltb pitch_variation (1 # 10)
      then ToneResult.mk "monotone" energy energy_status pitch_variation true
      else ToneResult.mk "engaging" energy energy_status pitch_variation false
  | Raised _ => ToneResult.mk "unknown" 0 "unknown" 0 false
  end.

(** [_generate_speech_nudge], lines 258-267: the pace branch appends at
    most one message. *)
Definition pace_nudges (pace_result : PaceResult.t) : list string :=
  let status := PaceResult.status pace_result in
  let wpm := str_int (PaceResult.wpm pace_result) in
  if (status =? "too_fast")%string then
    ["🐇 You're speaking too fast (" ++ wpm ++ " WPM). Slow down to help students absorb the material."]
  else if (status =? "fast")%string then
    ["⚡ Speaking a bit quickly (" ++ wpm ++ " WPM). Consider slowing down slightly."]
  else if (status =? "too_slow")%string then
    ["🐢 Speaking quite slowly (" ++ wpm ++ " WPM). You can speed up a bit to maintain engagement."]
  else if (status =? "slow")%string then
    ["😴 Pace is a bit slow (" ++ wpm ++ " WPM). Try adding more energy."]
  else if (status =? "unclear")%string then
    ["⚠️ Could not analyze speech - please speak more clearly or check your microphone."]
  else [].

(** Lines 270-271 *)
Definition monotone_nudges (tone_result : ToneResult.t) : list string :=
  if ToneResult.monotone tone_result
  then ["📉 Your tone sounds monotonous. Try varying your pitch and enthusiasm!"]
  else [].

(** Lines 273-276 *)
Definition energy_nudges (tone_result : ToneResult.t) : list string :=
  if (ToneResult.energy_status tone_result =? "too_quiet")%string then
    ["🔇 You're speaking too quietly. Increase your volume or check your microphone."]
  else if (ToneResult.energy_status tone_result =? "too_loud")%string then
    ["🔊 Volume is quite high. Lower it slightly for comfort."]
  else [].

Definition all_good : string := "✅ Great speech pace and tone! Keep it up!".

(** [_generate_speech_nudge], lines 252-283 *)
Definition _generate_speech_nudge
  (pace_result : PaceResult.t) (tone_result : ToneResult.t) : string :=
  let nudges :=
    (pace_nudges pace_result ++ monotone_nudges tone_result
       ++ energy_nudges tone_result)%list in
  match nudges with
  | [] => all_good
  | _ => join " | " nudges
  end.

(** [analyze_teacher_speech], lines 16-68 *)
Definition analyze_teacher_speech (c : capture) : SpeechResult.t :=
  match record_audio c with
  | Returned _ =>
      let pace_result := _analyze_pace c in
      let tone_result := _analyze_tone c in
      let nudge := _generate_speech_nudge pace_result tone_result in
      SpeechResult.mk
        (PaceResult.status pace_result) (PaceResult.wpm pace_result)
        (ToneResult.status tone_result) (ToneResult.energy tone_result)
        (ToneResult.pitch_variation tone_result) nudge
  | Raised _ =>
      SpeechResult.mk "unknown" 0 "unknown" 0 0
        "Could not analyze speech. Please check your microphone."
  end.

End SpeechAnalyzer.

(** ** app.py *)

Module Response.
(** The JSON body returned by the [/analyze-speech] endpoint. *)
Record t : Type := mk { status : string; message : string }.
End Response.

Module App.

(** [dashboard_data]: a dict whose eleven keys are fixed at start-up and
    never added or removed, so it is a record here. *)
Record dashboard : Type := mkDashboard {
  engagement_score : Z;
  emotion : string;
  audio_state : string;
  teacher_pace : string;
  teacher_wpm : Z;
  teacher_tone : string;
  nudge : string;
  speech_nudge : string;
  timestamp : Q;
  status : string;
  analyzing_speech : bool }.

Definition dquote : string := String (ascii_of_nat 34) EmptyString.

(** Lines 17-29, with [now] the value of [time.time()] at start-up. *)
Definition dashboard_data (now : Q) : dashboard :=
  mkDashboard 50 "neutral" "quiet" "unknown" 0 "unknown"
    ("Click " ++ dquote ++ "Analyze My Teaching" ++ dquote ++ " to get started!")
    "" now "Ready" false.

(** [dashboard_data[key] = v], one function per group of keys assigned
    together. *)
Definition set_status (v : string) (d : dashboard) : dashboard :=
  mkDashboard (engagement_score d) (emotion d) (audio_state d) (teacher_pace d)
    (teacher_wpm d) (teacher_tone d) (nudge d) (speech_nudge d) (timestamp d)
    v (analyzing_speech d).

Definition set_speech_nudge (v : string) (d : dashboard) : dashboard :=
  mkDashboard (engagement_score d) (emotion d) (audio_state d) (teacher_pace d)
    (teacher_wpm d) (teacher_tone d) (nudge d) v (timestamp d)
    (status d) (analyzing_speech d).

Definition set_analyzing_speech (v : bool) (d : dashboard) : dashboard :=
  mkDashboard (engagement_score d) (emotion d) (audio_state d) (teacher_pace d)
    (teacher_wpm d) (teacher_tone d) (nudge d) (speech_nudge d) (timestamp d)
    (status d) v.

Definition set_students (score : Z) (e a n : string) (now : Q) (d : dashboard)
  : dashboard :=
  mkDashboard score e a (teacher_pace d) (teacher_wpm d) (teacher_tone d) n
    (speech_nudge d) now (status d) (analyzing_speech d).

Definition set_teacher (pace : string) (wpm : Z) (tone : string) (d : dashboard)
  : dashboard :=
  mkDashboard (engagement_score d) (emotion d) (audio_state d) pace wpm tone
    (nudge d) (speech_nudge d) (timestamp d) (status d) (analyzing_speech d).

(** *** The engagement scorer, inlined in [update_student_data] *)

(** Lines 69-81: base score, emotion impact, audio impact. *)
Definition student_score (emotion audio_state : string) : Z :=
  let score := 50 in
  let score :=
    if str_in emotion ["happy"; "neutral"; "surprise"] then score + 20
    else if str_in emotion ["sad"; "angry"; "fear"] then score - 20
    else score in
  let score :=
    if (audio_state =? "silent")%string then score - 20
    else if (audio_state =? "active")%string then score + 10
    else score in
  score.

(** Lines 91-104: teacher pace impact, teacher tone impact, clamp. *)
Definition teacher_score (score : Z) (teacher_pace teacher_tone : string) : Z :=
  let score :=
    if (teacher_pace =? "too_fast")%string then score - 15
    else if (teacher_pace =? "too_slow")%string then score - 10
    else if (teacher_pace =? "good")%string then score + 5
    else score in
  let score :=
    if (teacher_tone =? "monotone")%string then score - 15
    else if (teacher_tone =? "engaging")%string then score + 10
    else score in
  Z.max 0 (Z.min 100 score).

Definition nudge_all_good : string := "✅ All good! Keep going.".
Definition nudge_low : string :=
  "⚠️ Low engagement! Try asking a question or showing an example.".
Definition nudge_dropping : string :=
  "⚡ Engagement dropping. Consider a quick activity or recap.".

(** Lines 107-111 *)
Definition main_nudge (score : Z) : string :=
  let nudge := nudge_all_good in
  if score <? 40 then nudge_low
  else if score <? 60 then nudge_dropping
  else nudge.

(** The score of one iteration, as a function of the four values it is
    computed from. *)
Definition engagement (emotion audio_state teacher_pace teacher_tone : string)
  : Z :=
  teacher_score (student_score emotion audio_state) teacher_pace teacher_tone.

(** *** The environment of one step *)

Record world : Type := mkWorld {
  emotion_source : outcome string;            (* get_classroom_emotion() *)
  audio_source : outcome (string * string);   (* check_classroom_audio(duration=3) *)
  clock : Q;                                  (* time.time() *)
  (* the try body of [analyze]: the collaborators of
     [analyze_teacher_speech], or the exception raised by the body *)
  teacher_capture : outcome SpeechAnalyzer.capture }.

(** *** [update_student_data]: the student loop, lines 41-133 *)

(** Where the student thread stands, with the locals it holds. *)
Inductive student_pc : Type :=
| AtPeek                                   (* line 44 *)
| AtStatus                                 (* line 55 *)
| AtEmotion                                (* line 60 *)
| AtAudio (emotion : string)               (* line 65 *)
| AtRead (emotion audio_state : string) (score : Z)                  (* line 84 *)
| AtCommit (emotion audio_state : string) (score : Z) (nudge : string) (* line 114 *)
| AtExcept (e : exn).                      (* line 125 *)

Definition student_step (w : world) (pc : student_pc) (d : dashboard)
  : student_pc * dashboard :=
  match pc with
  | AtPeek =>
      (* with data_lock: if analyzing_speech: sleep; continue *)
      if analyzing_speech d then (AtPeek, d) else (AtStatus, d)
  | AtStatus =>
      (AtEmotion, set_status "Analyzing students..." d)
  | AtEmotion =>
      match emotion_source w with
      | Returned emotion => (AtAudio emotion, d)
      | Raised e => (AtExcept e, d)
      end
  | AtAudio emotion =>
      match audio_source w with
      | Returned (audio_state, audio_message) =>
          (AtRead emotion audio_state (student_score emotion audio_state), d)
      | Raised e => (AtExcept e, d)
      end
  | AtRead emotion audio_state score =>
      (* with data_lock: read the teacher metrics *)
      let teacher_pace := teacher_pace d in
      let teacher_tone := teacher_tone d in
      let score := teacher_score score teacher_pace teacher_tone in
      (AtCommit emotion audio_state score (main_nudge score), d)
  | AtCommit emotion audio_state score nudge =>
      (AtPeek,
       set_status "Active" (set_students score emotion audio_state nudge (clock w) d))
  | AtExcept e =>
      (AtPeek, set_status ("Error: " ++ str_exn e) d)
  end.

(** *** [analyze_speech]: the endpoint and its background task *)

(** Where a task running [analyze] stands. *)
Inductive speech_pc : Type :=
| Started                                  (* thread created, line 177 next *)
| Recording                                (* lines 182-190 *)
| Committing (result : SpeechResult.t)     (* line 193 *)
| Handling (e : exn)                       (* line 208 *)
| Done.

Definition speech_step (w : world) (pc : speech_pc) (d : dashboard)
  : speech_pc * dashboard :=
  match pc with
  | Started =>
      (Recording,
       set_speech_nudge "🔴 Recording for 10 seconds... Speak naturally!"
         (set_status "Recording your speech..." d))
  | Recording =>
      match teacher_capture w with
      | Returned c => (Committing (SpeechAnalyzer.analyze_teacher_speech c), d)
      | Raised e => (Handling e, d)
      end
  | Committing result =>
      (Done,
       set_analyzing_speech false
         (set_status "Analysis complete!"
            (set_speech_nudge (SpeechResult.nudge result)
               (set_teacher (SpeechResult.pace result) (SpeechResult.wpm result)
                  (SpeechResult.tone result) d))))
  | Handling e =>
      (Done,
       set_analyzing_speech false
         (set_status "Error occurred"
            (set_speech_nudge ("Error analyzing speech: " ++ str_exn e) d)))
  | Done => (Done, d)
  end.

(** The whole process: the shared record, the student thread and the
    speech tasks created so far, in creation order. *)
Record system : Type := mkSystem {
  data : dashboard;
  student : student_pc;
  tasks : list speech_pc }.

Definition rejected : Response.t :=
  Response.mk "error" "Already analyzing speech. Please wait.".
Definition accepted : Response.t :=
  Response.mk "success"
    "Speech analysis started. Recording will begin in 2 seconds...".

(** Lines 149-220: test and set under one [with data_lock:], then the
    task is created. *)
Definition analyze_speech (s : system) : Response.t * system :=
  if analyzing_speech (data s) then (rejected, s)
  else
    (accepted,
     mkSystem
       (set_speech_nudge "Preparing to record..."
          (set_status "Get ready to speak..."
             (set_analyzing_speech true (data s))))
       (student s)
       (tasks s ++ [Started])).

Fixpoint update {A} (n : nat) (x : A) (l : list A) : list A :=
  match l, n with
  | [], _ => []
  | _ :: t, O => x :: t
  | h :: t, S n' => h :: update n' x t
  end.

(** Who moves next. *)
Inductive label : Type :=
| StudentStep
| Request                 (* POST /analyze-speech *)
| TaskStep (tid : nat).

Definition step (w : world) (l : label) (s : system) : option system :=
  match l with
  | StudentStep =>
      let (pc, d) := student_step w (student s) (data s) in
      Some (mkSystem d pc (tasks s))
  | Request => Some (snd (analyze_speech s))
  | TaskStep tid =>
      match nth_error (tasks s) tid with
      | None | Some Done => None
      | Some pc =>
          let (pc', d) := speech_step w pc (data s) in
          Some (mkSystem d (student s) (update tid pc' (tasks s)))
      end
  end.

Fixpoint run (sched : list (label * world)) (s : system) : option system :=
  match sched with
  | [] => Some s
  | (l, w) :: rest =>
      match step w l s with
      | Some s' => run rest s'
      | None => None
      end
  end.

(** Process start: line 239 starts the student thread, no task exists. *)
Definition boot (now : Q) : system := mkSystem (dashboard_data now) AtPeek [].

Definition is_done (pc : speech_pc) : bool :=
  match pc with Done => true | _ => false end.

(** Number of tasks that have not reached their terminal commit. *)
Definition live (l : list speech_pc) : nat :=
  List.length (filter (fun pc => negb (is_done pc)) l).

(** How many steps a task still has to take. *)
Definition steps_left (pc : speech_pc) : nat :=
  match pc with
  | Started => 3
  | Recording => 2
  | Committing _ | Handling _ => 1
  | Done => 0
  end.

End App.

(** ** audio_detector.py *)

Module AudioDetector.

Definition sum_abs (recording : list Q) : Q :=
  fold_right (fun x acc => (Qabs x + acc)%Q) 0%Q recording.

(** [np.abs(recording).mean()]; the mean of an empty array is nan, which
    is [None] here. The mean is exact here and a rounded float32 sum and
    division in the program. *)
Definition volume_of (recording : list Q) : option Q :=
  match recording with
  | [] => None
  | _ => Some (sum_abs recording / inject_Z (Z.of_nat (List.length recording)))%Q
  end.

(** [volume < bound]: every comparison with nan is false. *)
Definition nan_ltb (volume : option Q) (bound : Q) : bool :=
  match volume with
  | Some v => ltb v bound
  | None => false
  end.

(** [check_classroom_audio], lines 4-27; [mic] is what [sd.rec] and
    [sd.wait] deliver, and an exception of theirs is not caught here. *)
Definition check_classroom_audio (mic : outcome (list Q))
  : outcome (string * string) :=
  match mic with
  | Raised e => Raised e
  | Returned recording =>
      let volume := volume_of recording in
      if nan_ltb volume (1 # 100) then
        Returned ("silent", "⚠️ Dead silence - students may be confused")
      else if nan_ltb volume (5 # 100) then
        Returned ("quiet", "✅ Normal classroom sound")
      else
        Returned ("active", "💬 Active discussion happening")
  end.

End AudioDetector.

(** ** emotion_detector.py *)

Module EmotionDetector.

(** One turn of the five-second loop of [get_classroom_emotion]. *)
Inductive frame : Type :=
| NoFrame                               (* cap.read() gave ret = False *)
| Analyzed (dominant_emotion : string)  (* DeepFace.analyze returned *)
| AnalysisFailed (e : exn).             (* DeepFace.analyze raised *)

(** Lines 12-33: [emotions_detected] after the loop has seen [frames]. *)
Fixpoint detect (frames : list frame) : list string :=
  match frames with
  | [] => []
  | NoFrame :: rest => detect rest
  | Analyzed emotion :: rest => emotion :: detect rest
  | AnalysisFailed _ :: rest => detect rest
  end.

(** [l.count(x)] *)
Definition count (l : list string) (x : string) : nat :=
  count_occ string_dec l x.

(** [max(iterable, key=key)]: the first item whose key is largest;
    [ValueError] on an empty iterable. *)
Fixpoint max_from {A} (key : A -> nat) (best : A) (rest : list A) : A :=
  match rest with
  | [] => best
  | x :: rest' =>
      if (key best <? key x)%nat then max_from key x rest'
      else max_from key best rest'
  end.

Definition py_max {A} (key : A -> nat) (iterable : list A) : outcome A :=
  match iterable with
  | [] => Raised (Exception "max() arg is an empty sequence")
  | x :: rest => Returned (max_from key x rest)
  end.

(** [get_classroom_emotion], lines 7-40. [set_iter l] is the order in
    which Python iterates over [set(l)]; the language leaves it open. *)
Definition get_classroom_emotion
  (set_iter : list string -> list string) (frames : list frame)
  : outcome string :=
  let emotions_detected := detect frames in
  match emotions_detected with
  | [] => Returned "neutral"
  | _ => py_max (count emotions_detected) (set_iter emotions_detected)
  end.

End EmotionDetector.


Import SpeechAnalyzer App.
Import AudioDetector EmotionDetector.

(** * Vocabulary of the properties *)

(** The scoring rule in the words of the specification. *)
Definition emotion_delta (emotion : string) : Z :=
  if str_in emotion ["happy"; "neutral"; "surprise"] then 20
  else if str_in emotion ["sad"; "angry"; "fear"] then -20
  else 0.

Definition audio_delta (audio_state : string) : Z :=
  if (audio_state =? "silent")%string then -20
  else if (audio_state =? "active")%string then 10
  else 0.

Definition pace_delta (teacher_pace : string) : Z :=
  if (teacher_pace =? "too_fast")%string then -15
  else if (teacher_pace =? "too_slow")%string then -10
  else if (teacher_pace =? "good")%string then 5
  else 0.

Definition tone_delta (teacher_tone : string) : Z :=
  if (teacher_tone =? "monotone")%string then -15
  else if (teacher_tone =? "engaging")%string then 10
  else 0.

Definition clamp (lo hi x : Z) : Z :=
  if x <? lo then lo else if hi <? x then hi else x.

Definition spec_score (emotion audio_state teacher_pace teacher_tone : string)
  : Z :=
  clamp 0 100
    (50 + emotion_delta emotion + audio_delta audio_state
       + pace_delta teacher_pace + tone_delta teacher_tone).

(** The pace statuses of the data model. *)
Definition pace_statuses : list string :=
  ["too_fast"; "fast"; "good"; "slow"; "too_slow"; "unclear"; "error"; "unknown"].

(** The statuses for which the generator has a pace message. *)
Definition templated : list string :=
  ["too_fast"; "fast"; "too_slow"; "slow"; "unclear"].

Definition has_pace_message (status : string) : bool :=
  match pace_nudges (PaceResult.mk status 0 0) with
  | [] => false
  | _ => true
  end.

(** The messages of one call, in the order they are appended. *)
Definition nudges_of (p : PaceResult.t) (t : ToneResult.t) : list string :=
  (pace_nudges p ++ monotone_nudges t ++ energy_nudges t)%list.

Definition alive (pc : speech_pc) : nat := if is_done pc then 0 else 1.

(** The busy flag is set exactly while one task is in flight. *)
Definition flag_owned (s : system) : Prop :=
  live (tasks s) = if analyzing_speech (data s) then 1%nat else 0%nat.

Definition teacher_fields (d : dashboard) : string * Z * string :=
  (teacher_pace d, teacher_wpm d, teacher_tone d).

Definition task_moved (w : world) (tid : nat) (pc : speech_pc) (s : system)
  : system :=
  mkSystem (snd (speech_step w pc (data s))) (student s)
    (update tid (fst (speech_step w pc (data s))) (tasks s)).

(** The exception a task at [pc] ends on, if the environment is [w]. *)
Definition fails_with (pc : speech_pc) (w : world) (e : exn) : Prop :=
  pc = Handling e \/
  ((pc = Started \/ pc = Recording) /\ teacher_capture w = Raised e).

(** How many steps of task [tid] a schedule holds. *)
Definition is_step_of (tid : nat) (a : label * world) : bool :=
  match fst a with
  | TaskStep t => Nat.eqb t tid
  | _ => false
  end.

Definition count_task (tid : nat) (sched : list (label * world)) : nat :=
  List.length (filter (is_step_of tid) sched).

(** Ten seconds at 16 kHz, thirty words, a lively voice. *)
Definition lesson : capture :=
  mkCapture (Returned tt)
    (Returned (repeat "word" 30))
    (Returned (mkLoaded 160000 16000))
    (Returned (mkFeatures (8 # 100) 40 180 45)).

Definition w_happy : world :=
  mkWorld (Returned "happy")
    (Returned ("active", "💬 Active discussion happening"))
    1 (Returned lesson).

Definition w_broken : world :=
  mkWorld (Raised (Exception "camera unplugged"))
    (Raised (Exception "PortAudio error"))
    2 (Raised (Exception "microphone busy")).

Definition speech_fields (d : dashboard) : string * Z * string * string :=
  (teacher_pace d, teacher_wpm d, teacher_tone d, speech_nudge d).

(** The step is the terminal commit of a task's results (line 193). *)
Definition commits_results (l : label) (s : system) : Prop :=
  exists tid r, l = TaskStep tid /\
                nth_error (tasks s) tid = Some (Committing r).

Definition is_student (a : label * world) : bool :=
  match fst a with StudentStep => true | _ => false end.

(** The student thread passes its check, then the trigger arrives. *)
Definition late_trigger : list (label * world) :=
  [(StudentStep, w_happy); (Request, w_happy)].

(** The same, followed by the rest of the student iteration with the
    task's recording notice in between. *)
Definition overlapped_iteration : list (label * world) :=
  (late_trigger ++
   [(StudentStep, w_happy);      (* status = 'Analyzing students...' *)
    (TaskStep 0, w_happy);       (* status = 'Recording your speech...' *)
    (StudentStep, w_happy);      (* get_classroom_emotion() *)
    (StudentStep, w_happy);      (* check_classroom_audio(duration=3) *)
    (StudentStep, w_happy);      (* read the teacher metrics *)
    (StudentStep, w_happy)])%list. (* commit, status = 'Active' *)

(** One good student iteration, then one in which the camera fails. *)
Definition failing_iteration : list (label * world) :=
  (repeat (StudentStep, w_happy) 6 ++ repeat (StudentStep, w_broken) 4)%list.



(** The tone and energy statuses [_analyze_tone] can return. *)
Definition tone_statuses : list string := ["monotone"; "engaging"; "unknown"].

Definition energy_statuses : list string :=
  ["too_quiet"; "quiet"; "good"; "too_loud"; "unknown"].

(** The statuses [_analyze_pace] can return. *)
Definition pace_outcomes : list string :=
  ["too_fast"; "fast"; "too_slow"; "slow"; "good"; "unclear"; "error"].

(** [_record_audio], line 78: the number of samples asked of [sd.rec]. *)
Definition recorded_samples (duration : Q) (rate : Z) : Z :=
  int (duration * inject_Z rate).

(** The pace status of the fixed ten-second recording, by word count. *)
Definition pace_by_words (n : Z) : string :=
  if 30 <? n then "too_fast"
  else if 26 <? n then "fast"
  else if n <? 17 then "too_slow"
  else if n <? 20 then "slow"
  else "good".

(** A result whose fields are in the ranges of the data model. *)
Definition result_ok (r : SpeechResult.t) : Prop :=
  In (SpeechResult.pace r) pace_statuses /\
  0 <= SpeechResult.wpm r /\
  In (SpeechResult.tone r) tone_statuses.

(** The audio states, and how loud each one is. *)
Definition audio_states : list string := ["silent"; "quiet"; "active"].

Definition loudness (state : string) : nat :=
  if (state =? "silent")%string then 0
  else if (state =? "quiet")%string then 1
  else 2.

(** The state [check_classroom_audio] reports for a recording. *)
Definition heard (recording : list Q) : string :=
  match check_classroom_audio (Returned recording) with
  | Returned (state, _) => state
  | Raised _ => ""
  end.

(** The nudge shown before the first student iteration has committed. *)
Definition initial_nudge : string := nudge (dashboard_data 0).

(** The record is within the ranges of its data model, and its nudge
    belongs to its score. *)
Definition dashboard_ok (d : dashboard) : Prop :=
  0 <= engagement_score d <= 95 /\
  In (teacher_pace d) pace_statuses /\
  0 <= teacher_wpm d /\
  In (teacher_tone d) tone_statuses /\
  ((nudge d = initial_nudge /\ engagement_score d = 50) \/
   nudge d = main_nudge (engagement_score d)).

(** The locals of the student thread are what the code computed. *)
Definition student_ok (pc : student_pc) : Prop :=
  match pc with
  | AtRead emotion audio_state score => score = student_score emotion audio_state
  | AtCommit _ _ score nudge => 0 <= score <= 95 /\ nudge = main_nudge score
  | _ => True
  end.

Definition task_ok (pc : speech_pc) : Prop :=
  match pc with
  | Committing r => result_ok r
  | _ => True
  end.

Definition well_formed (s : system) : Prop :=
  dashboard_ok (data s) /\ student_ok (student s) /\ Forall task_ok (tasks s).

(** The audio sample of this environment came from
    [check_classroom_audio]. *)
Definition audio_from_detector (w : world) : Prop :=
  exists mic, audio_source w = check_classroom_audio mic.

(** The audio state shown, and the one the student thread holds, are
    among the three states. *)
Definition audio_known (s : system) : Prop :=
  In (audio_state (data s)) audio_states /\
  match student s with
  | AtRead _ a _ => In a audio_states
  | AtCommit _ a _ _ => In a audio_states
  | _ => True
  end.

(** The emotions that lower the score. *)
Definition negative_emotions : list string := ["sad"; "angry"; "fear"].

(** The four fields a result is committed to. *)
Definition committed (r : SpeechResult.t) : string * Z * string * string :=
  (SpeechResult.pace r, SpeechResult.wpm r, SpeechResult.tone r,
   SpeechResult.nudge r).

(** A step of the student thread, or a step of task [tid] that, if it
    runs the analysis, does so on capture [c]. *)
Definition student_or_task (tid : nat) (c : capture) (a : label * world)
  : Prop :=
  fst a = StudentStep \/
  (fst a = TaskStep tid /\ teacher_capture (snd a) = Returned c).

(** Task [tid] has [k] steps to go on its way to committing the analysis
    of [c]. *)
Definition phase (tid : nat) (c : capture) (s : system) (k : nat) : Prop :=
  (k = 2%nat /\ nth_error (tasks s) tid = Some Recording) \/
  (k = 1%nat /\
   nth_error (tasks s) tid = Some (Committing (analyze_teacher_speech c))) \/
  (k = 0%nat /\ nth_error (tasks s) tid = Some Done /\
   speech_fields (data s) = committed (analyze_teacher_speech c) /\
   analyzing_speech (data s) = false).

(** The four steps that assign speech_nudge, each with the value it
    writes: the accepted trigger (line 165), the recording notice (line
    179), the terminal commit of a result (line 197) and the error commit
    (line 209). *)
Definition writes_speech_nudge (l : label) (s : system) (v : string) : Prop :=
  (l = Request /\ analyzing_speech (data s) = false /\
   v = "Preparing to record...") \/
  (exists tid,
     l = TaskStep tid /\ nth_error (tasks s) tid = Some Started /\
     v = "🔴 Recording for 10 seconds... Speak naturally!") \/
  (exists tid r,
     l = TaskStep tid /\ nth_error (tasks s) tid = Some (Committing r) /\
     v = SpeechResult.nudge r) \/
  (exists tid e,
     l = TaskStep tid /\ nth_error (tasks s) tid = Some (Handling e) /\
     v = "Error analyzing speech: " ++ str_exn e).

(** * Properties *)

(** ** Comparisons on rationals *)

Lemma ltb_true_iff (x y : Q) : ltb x y = true <-> (x < y)%Q.
Proof.
  unfold ltb. rewrite negb_true_iff, <- not_true_iff_false, Qle_bool_iff.
  split; [apply Qnot_le_lt | apply Qlt_not_le].
Qed.

Lemma ltb_false_iff (x y : Q) : ltb x y = false <-> (y <= x)%Q.
Proof.
  unfold ltb. rewrite negb_false_iff. apply Qle_bool_iff.
Qed.

Lemma gtb_true_iff (x y : Q) : gtb x y = true <-> (y < x)%Q.
Proof. apply ltb_true_iff. Qed.

Lemma gtb_false_iff (x y : Q) : gtb x y = false <-> (x <= y)%Q.
Proof. apply ltb_false_iff. Qed.

(** Decide one comparison of the threshold chain and keep the fact. *)
Ltac cmp_cases x y :=
  let E := fresh "E" in
  destruct (ltb x y) eqn:E;
  [ apply ltb_true_iff in E | apply ltb_false_iff in E ].

(** ** The pace classifier *)

Section Pace.

Variable wpm : Q.

Lemma pace_too_fast : (180 < wpm)%Q -> categorize_pace wpm = "too_fast".
Proof.
  intros H. unfold categorize_pace.
  apply gtb_true_iff in H. now rewrite H.
Qed.

Lemma pace_fast :
  (160 < wpm)%Q -> (wpm <= 180)%Q -> categorize_pace wpm = "fast".
Proof.
  intros H1 H2. unfold categorize_pace.
  apply gtb_true_iff in H1. apply gtb_false_iff in H2.
  now rewrite H2, H1.
Qed.

Lemma pace_too_slow : (wpm < 100)%Q -> categorize_pace wpm = "too_slow".
Proof.
  intros H. unfold categorize_pace, gtb.
  cmp_cases 180%Q wpm.
  - exfalso. apply (Qlt_irrefl wpm).
    apply Qlt_trans with (1 := H). now apply Qlt_trans with (2 := E).
  - cmp_cases 160%Q wpm.
    + exfalso. apply (Qlt_irrefl wpm).
      apply Qlt_trans with (1 := H). now apply Qlt_trans with (2 := E0).
    + apply ltb_true_iff in H. now rewrite H.
Qed.

Lemma pace_slow :
  (100 <= wpm)%Q -> (wpm < 120)%Q -> categorize_pace wpm = "slow".
Proof.
  intros H1 H2. unfold categorize_pace, gtb.
  cmp_cases 180%Q wpm.
  - exfalso. apply (Qlt_irrefl wpm).
    apply Qlt_trans with (1 := H2). now apply Qlt_trans with (2 := E).
  - cmp_cases 160%Q wpm.
    + exfalso. apply (Qlt_irrefl wpm).
      apply Qlt_trans with (1 := H2). now apply Qlt_trans with (2 := E0).
    + apply ltb_false_iff in H1. apply ltb_true_iff in H2.
      now rewrite H1, H2.
Qed.

Lemma pace_good :
  (120 <= wpm)%Q -> (wpm <= 160)%Q -> categorize_pace wpm = "good".
Proof.
  intros H1 H2. unfold categorize_pace, gtb.
  cmp_cases 180%Q wpm.
  - exfalso. apply (Qlt_irrefl wpm).
    apply Qle_lt_trans with (1 := H2). now apply Qlt_trans with (2 := E).
  - apply gtb_false_iff in H2. unfold gtb in H2. rewrite H2.
    cmp_cases wpm 100%Q.
    + exfalso. apply (Qlt_irrefl wpm).
      apply Qlt_le_trans with (1 := E0).
      now apply Qle_trans with (2 := H1).
    + apply ltb_false_iff in H1. now rewrite H1.
Qed.

End Pace.

(** C6. For every wpm the classifier returns the status of the first
    threshold that matches, in the order >180 too_fast, >160 fast, <100
    too_slow, <120 slow, otherwise good: the five bands below cover every
    value and each has one status; 181, 170, 140, 110 and 90 fall in
    too_fast, fast, good, slow and too_slow. *)
Theorem pace_classifier_thresholds (wpm : Q) :
  ((180 < wpm)%Q -> categorize_pace wpm = "too_fast") /\
  ((160 < wpm)%Q /\ (wpm <= 180)%Q -> categorize_pace wpm = "fast") /\
  ((wpm < 100)%Q -> categorize_pace wpm = "too_slow") /\
  ((100 <= wpm)%Q /\ (wpm < 120)%Q -> categorize_pace wpm = "slow") /\
  ((120 <= wpm)%Q /\ (wpm <= 160)%Q -> categorize_pace wpm = "good") /\
  ((180 < wpm)%Q \/ ((160 < wpm)%Q /\ (wpm <= 180)%Q) \/ (wpm < 100)%Q \/
   ((100 <= wpm)%Q /\ (wpm < 120)%Q) \/ ((120 <= wpm)%Q /\ (wpm <= 160)%Q)) /\
  map categorize_pace [181%Q; 170%Q; 140%Q; 110%Q; 90%Q]
    = ["too_fast"; "fast"; "good"; "slow"; "too_slow"].
Proof.
  repeat split.
  - apply pace_too_fast.
  - intros [H1 H2]. now apply pace_fast.
  - apply pace_too_slow.
  - intros [H1 H2]. now apply pace_slow.
  - intros [H1 H2]. now apply pace_good.
  - destruct (Qlt_le_dec 180 wpm) as [H|H]; [now left | right].
    destruct (Qlt_le_dec 160 wpm) as [H0|H0]; [now left | right].
    destruct (Qlt_le_dec wpm 100) as [H1|H1]; [now left | right].
    destruct (Qlt_le_dec wpm 120) as [H2|H2]; [now left | now right].
Qed.

Lemma pace_classifier_thresholds_witness :
  categorize_pace 170 = "fast" /\ categorize_pace (241 # 2) = "good".
Proof.
  split.
  - apply (pace_classifier_thresholds 170). split; [reflexivity | discriminate].
  - apply (pace_classifier_thresholds (241 # 2)). split; discriminate.
Defined.

(** ** The words-per-minute guard *)

Lemma wpm_guard_closed (word_count : Z) (d : Q) :
  (d <= 0)%Q -> words_per_minute word_count d = ret 0%Q.
Proof.
  intros H. unfold words_per_minute.
  apply gtb_false_iff in H. now rewrite H.
Qed.

Lemma wpm_guard_open (word_count : Z) (d : Q) :
  (0 < d)%Q ->
  words_per_minute word_count d
  = ([Div (inject_Z word_count) d], Returned (inject_Z word_count / d)%Q).
Proof.
  intros H. unfold words_per_minute, truediv.
  assert (G : gtb d 0 = true) by now apply gtb_true_iff.
  rewrite G.
  destruct (Qeq_bool d 0) eqn:E; [| reflexivity].
  apply Qeq_bool_eq in E. rewrite E in H. now apply Qlt_irrefl in H.
Qed.

(** C7. For every word count, a duration of at most 0 minutes makes the
    classifier evaluate no division and take wpm = 0; and for no duration
    at all does the wpm computation raise a division by zero. *)
Theorem wpm_never_divides_by_zero (word_count : Z) (duration_minutes : Q) :
  ((duration_minutes <= 0)%Q ->
     ops (words_per_minute word_count duration_minutes) = [] /\
     result (words_per_minute word_count duration_minutes) = Returned 0%Q) /\
  result (words_per_minute word_count duration_minutes)
    <> Raised ZeroDivisionError.
Proof.
  split.
  - intros H. rewrite wpm_guard_closed by assumption. now split.
  - destruct (Qlt_le_dec 0 duration_minutes) as [H|H].
    + rewrite wpm_guard_open by assumption. discriminate.
    + rewrite wpm_guard_closed by assumption. discriminate.
Qed.

Lemma wpm_never_divides_by_zero_witness :
  ops (words_per_minute 25 0) = [] /\
  result (words_per_minute 25 0) = Returned 0%Q.
Proof.
  apply (wpm_never_divides_by_zero 25 0). discriminate.
Defined.

(** ** The engagement scorer *)

Lemma clamp_max_min (x : Z) : Z.max 0 (Z.min 100 x) = clamp 0 100 x.
Proof.
  unfold clamp.
  destruct (Z.ltb_spec x 0), (Z.ltb_spec 100 x); lia.
Qed.

Lemma engagement_refines_spec (e a p t : string) :
  engagement e a p t = spec_score e a p t.
Proof.
  unfold engagement, teacher_score, student_score, spec_score.
  rewrite clamp_max_min. f_equal.
  unfold emotion_delta, audio_delta, pace_delta, tone_delta.
  destruct (str_in e ["happy"; "neutral"; "surprise"]),
    (str_in e ["sad"; "angry"; "fear"]),
    (a =? "silent")%string, (a =? "active")%string,
    (p =? "too_fast")%string, (p =? "too_slow")%string, (p =? "good")%string,
    (t =? "monotone")%string, (t =? "engaging")%string; lia.
Qed.

Lemma main_nudge_cases (score : Z) :
  (score < 40 /\ main_nudge score = nudge_low) \/
  (40 <= score < 60 /\ main_nudge score = nudge_dropping) \/
  (60 <= score /\ main_nudge score = nudge_all_good).
Proof.
  unfold main_nudge.
  destruct (Z.ltb_spec score 40); [now left | right].
  destruct (Z.ltb_spec score 60); [left | right]; now split.
Qed.


Lemma student_iteration_commits
  (w : world) (s : system) (emotion audio_state audio_message : string) :
  student s = AtEmotion ->
  emotion_source w = Returned emotion ->
  audio_source w = Returned (audio_state, audio_message) ->
  run (repeat (StudentStep, w) 4) s
  = Some (mkSystem
            (set_status "Active"
               (set_students
                  (engagement emotion audio_state
                     (teacher_pace (data s)) (teacher_tone (data s)))
                  emotion audio_state
                  (main_nudge
                     (engagement emotion audio_state
                        (teacher_pace (data s)) (teacher_tone (data s))))
                  (clock w) (data s)))
            AtPeek (tasks s)).
Proof.
  intros P He Ha. cbn [repeat run]. cbn [step]. rewrite P.
  cbn [student_step]. rewrite He. cbn [step student data tasks student_step].
  rewrite Ha. reflexivity.
Qed.



(** ** The speech nudge generator *)

Lemma eqb_cases (s lit : string) :
  (s = lit /\ (s =? lit)%string = true) \/ (s <> lit /\ (s =? lit)%string = false).
Proof. destruct (String.eqb_spec s lit); [left | right]; now split. Qed.

Lemma pace_nudges_nonempty_iff (p : PaceResult.t) :
  pace_nudges p <> [] <-> In (PaceResult.status p) templated.
Proof.
  unfold pace_nudges, templated.
  destruct (eqb_cases (PaceResult.status p) "too_fast") as [[E1 B1]|[E1 B1]];
    rewrite B1; [split; [intros _; rewrite E1; simpl; auto 10 | discriminate] |].
  destruct (eqb_cases (PaceResult.status p) "fast") as [[E2 B2]|[E2 B2]];
    rewrite B2; [split; [intros _; rewrite E2; simpl; auto 10 | discriminate] |].
  destruct (eqb_cases (PaceResult.status p) "too_slow") as [[E3 B3]|[E3 B3]];
    rewrite B3; [split; [intros _; rewrite E3; simpl; auto 10 | discriminate] |].
  destruct (eqb_cases (PaceResult.status p) "slow") as [[E4 B4]|[E4 B4]];
    rewrite B4; [split; [intros _; rewrite E4; simpl; auto 10 | discriminate] |].
  destruct (eqb_cases (PaceResult.status p) "unclear") as [[E5 B5]|[E5 B5]];
    rewrite B5; [split; [intros _; rewrite E5; simpl; auto 10 | discriminate] |].
  split; [congruence |].
  simpl. intros [H|[H|[H|[H|[H|[]]]]]]; congruence.
Qed.

Lemma pace_nudges_at_most_one (p : PaceResult.t) :
  (List.length (pace_nudges p) <= 1)%nat.
Proof.
  unfold pace_nudges.
  repeat match goal with
         | |- context [if ?b then _ else _] => destruct b
         end; simpl; lia.
Qed.

Lemma monotone_nudges_nonempty_iff (t : ToneResult.t) :
  monotone_nudges t <> [] <-> ToneResult.monotone t = true.
Proof.
  unfold monotone_nudges. destruct (ToneResult.monotone t);
    split; congruence.
Qed.

Lemma energy_nudges_nonempty_iff (t : ToneResult.t) :
  energy_nudges t <> [] <->
  ToneResult.energy_status t = "too_quiet" \/
  ToneResult.energy_status t = "too_loud".
Proof.
  unfold energy_nudges.
  destruct (eqb_cases (ToneResult.energy_status t) "too_quiet")
    as [[E1 B1]|[E1 B1]]; rewrite B1; [split; [tauto | discriminate] |].
  destruct (eqb_cases (ToneResult.energy_status t) "too_loud")
    as [[E2 B2]|[E2 B2]]; rewrite B2; [split; [tauto | discriminate] |].
  split; [congruence | tauto].
Qed.

(** No joined list of messages reads like the all-good message: every
    message starts with a symbol other than the check mark. *)
Lemma joined_is_not_all_good (p : PaceResult.t) (t : ToneResult.t) :
  nudges_of p t <> [] -> join " | " (nudges_of p t) <> all_good.
Proof.
  unfold nudges_of, pace_nudges, monotone_nudges, energy_nudges, all_good, join.
  generalize (str_int (PaceResult.wpm p)). intros w.
  repeat match goal with
         | |- context [if ?b then _ else _] => destruct b
         end; cbn [app String.concat append]; intros H;
    solve [discriminate | now contradiction H].
Qed.

Lemma generate_speech_nudge_unfold (p : PaceResult.t) (t : ToneResult.t) :
  (nudges_of p t = [] /\ _generate_speech_nudge p t = all_good) \/
  (nudges_of p t <> [] /\
   _generate_speech_nudge p t = join " | " (nudges_of p t)).
Proof.
  unfold _generate_speech_nudge. fold (nudges_of p t).
  destruct (nudges_of p t); [left | right]; split;
    solve [reflexivity | discriminate].
Qed.

Lemma generate_speech_nudge_inputs (p p' : PaceResult.t) (t t' : ToneResult.t) :
  PaceResult.status p' = PaceResult.status p ->
  PaceResult.wpm p' = PaceResult.wpm p ->
  ToneResult.monotone t' = ToneResult.monotone t ->
  ToneResult.energy_status t' = ToneResult.energy_status t ->
  _generate_speech_nudge p' t' = _generate_speech_nudge p t.
Proof.
  intros H1 H2 H3 H4.
  unfold _generate_speech_nudge, pace_nudges, monotone_nudges, energy_nudges.
  now rewrite H1, H2, H3, H4.
Qed.

Lemma pace_templates (p : PaceResult.t) :
  let wpm := str_int (PaceResult.wpm p) in
  (PaceResult.status p = "too_fast" ->
     pace_nudges p
     = ["🐇 You're speaking too fast (" ++ wpm
        ++ " WPM). Slow down to help students absorb the material."]) /\
  (PaceResult.status p = "fast" ->
     pace_nudges p
     = ["⚡ Speaking a bit quickly (" ++ wpm
        ++ " WPM). Consider slowing down slightly."]) /\
  (PaceResult.status p = "too_slow" ->
     pace_nudges p
     = ["🐢 Speaking quite slowly (" ++ wpm
        ++ " WPM). You can speed up a bit to maintain engagement."]) /\
  (PaceResult.status p = "slow" ->
     pace_nudges p
     = ["😴 Pace is a bit slow (" ++ wpm ++ " WPM). Try adding more energy."]) /\
  (PaceResult.status p = "unclear" ->
     pace_nudges p
     = ["⚠️ Could not analyze speech - please speak more clearly or check your microphone."]).
Proof.
  intros wpm. unfold pace_nudges. fold wpm.
  repeat split; intros H; rewrite H; reflexivity.
Qed.

Lemma tone_templates (t : ToneResult.t) :
  (ToneResult.monotone t = true ->
     monotone_nudges t
     = ["📉 Your tone sounds monotonous. Try varying your pitch and enthusiasm!"]) /\
  (ToneResult.energy_status t = "too_quiet" ->
     energy_nudges t
     = ["🔇 You're speaking too quietly. Increase your volume or check your microphone."]) /\
  (ToneResult.energy_status t = "too_loud" ->
     energy_nudges t
     = ["🔊 Volume is quite high. Lower it slightly for comfort."]).
Proof.
  unfold monotone_nudges, energy_nudges.
  repeat split; intros H; rewrite H; reflexivity.
Qed.

(** [str(n)] is the decimal numeral of [n]: reading it back gives [n]. *)
Lemma str_int_reads_back (n : Z) :
  option_map Z.of_int (NilZero.int_of_string (str_int n)) = Some n.
Proof.
  unfold str_int. rewrite NilZero.isi.
  - cbn [option_map]. f_equal. apply DecimalZ.of_to.
  - destruct n as [|q|q]; try discriminate.
    intros H. injection H. apply DecimalPos.Unsigned.to_uint_nonnil.
  - destruct n as [|q|q]; try discriminate.
    intros H. injection H. apply DecimalPos.Unsigned.to_uint_nonnil.
Qed.

(** C8, as the code has it. The generator is a function of the pace
    result's status and wpm and of the tone result's monotone flag and
    energy status only. It emits, in this order, at most one pace message
    (there are five pace templates: those for too_fast, fast, too_slow
    and slow embed the decimal numeral of the wpm, the one for unclear is
    the microphone-check message), the monotone message iff monotone is
    true, and an energy message iff energy_status is too_quiet or
    too_loud, joined with " | "; it returns the fixed all-good message
    iff no message qualifies. *)
Theorem speech_nudge_generator (p : PaceResult.t) (t : ToneResult.t) :
  (List.length (pace_nudges p) <= 1)%nat /\
  (pace_nudges p <> [] <-> In (PaceResult.status p) templated) /\
  List.length templated = 5%nat /\
  (monotone_nudges t <> [] <-> ToneResult.monotone t = true) /\
  (energy_nudges t <> [] <->
     ToneResult.energy_status t = "too_quiet" \/
     ToneResult.energy_status t = "too_loud") /\
  (_generate_speech_nudge p t = all_good <-> nudges_of p t = []) /\
  (nudges_of p t <> [] ->
     _generate_speech_nudge p t = join " | " (nudges_of p t)) /\
  (forall p' t',
     PaceResult.status p' = PaceResult.status p ->
     PaceResult.wpm p' = PaceResult.wpm p ->
     ToneResult.monotone t' = ToneResult.monotone t ->
     ToneResult.energy_status t' = ToneResult.energy_status t ->
     _generate_speech_nudge p' t' = _generate_speech_nudge p t) /\
  _generate_speech_nudge (PaceResult.mk "too_fast" 200 300)
    (ToneResult.mk "monotone" (1 # 100) "too_quiet" (5 # 100) true)
  = "🐇 You're speaking too fast (200 WPM). Slow down to help students absorb the material."
    ++ " | " ++ "📉 Your tone sounds monotonous. Try varying your pitch and enthusiasm!"
    ++ " | " ++ "🔇 You're speaking too quietly. Increase your volume or check your microphone." /\
  _generate_speech_nudge (PaceResult.mk "unclear" 0 0)
    (ToneResult.mk "engaging" (8 # 100) "good" (3 # 10) false)
  = "⚠️ Could not analyze speech - please speak more clearly or check your microphone." /\
  (PaceResult.status p = "too_fast" ->
     pace_nudges p
     = ["🐇 You're speaking too fast (" ++ str_int (PaceResult.wpm p)
        ++ " WPM). Slow down to help students absorb the material."]) /\
  (PaceResult.status p = "fast" ->
     pace_nudges p
     = ["⚡ Speaking a bit quickly (" ++ str_int (PaceResult.wpm p)
        ++ " WPM). Consider slowing down slightly."]) /\
  (PaceResult.status p = "too_slow" ->
     pace_nudges p
     = ["🐢 Speaking quite slowly (" ++ str_int (PaceResult.wpm p)
        ++ " WPM). You can speed up a bit to maintain engagement."]) /\
  (PaceResult.status p = "slow" ->
     pace_nudges p
     = ["😴 Pace is a bit slow (" ++ str_int (PaceResult.wpm p)
        ++ " WPM). Try adding more energy."]) /\
  (PaceResult.status p = "unclear" ->
     pace_nudges p
     = ["⚠️ Could not analyze speech - please speak more clearly or check your microphone."]) /\
  (ToneResult.monotone t = true ->
     monotone_nudges t
     = ["📉 Your tone sounds monotonous. Try varying your pitch and enthusiasm!"]) /\
  (ToneResult.energy_status t = "too_quiet" ->
     energy_nudges t
     = ["🔇 You're speaking too quietly. Increase your volume or check your microphone."]) /\
  (ToneResult.energy_status t = "too_loud" ->
     energy_nudges t
     = ["🔊 Volume is quite high. Lower it slightly for comfort."]) /\
  all_good = "✅ Great speech pace and tone! Keep it up!" /\
  option_map Z.of_int (NilZero.int_of_string (str_int (PaceResult.wpm p)))
  = Some (PaceResult.wpm p) /\
  map str_int [0; 7; 99; 200; 1234] = ["0"; "7"; "99"; "200"; "1234"].
Proof.
  split; [apply pace_nudges_at_most_one |].
  split; [apply pace_nudges_nonempty_iff |].
  split; [reflexivity |].
  split; [apply monotone_nudges_nonempty_iff |].
  split; [apply energy_nudges_nonempty_iff |].
  split.
  { destruct (generate_speech_nudge_unfold p t) as [[E G] | [E G]];
      rewrite G; split; intros H; try congruence.
    exfalso. now apply (joined_is_not_all_good p t). }
  split.
  { intros H.
    destruct (generate_speech_nudge_unfold p t) as [[E G] | [E G]];
      [contradiction | assumption]. }
  split; [intros p' t'; apply generate_speech_nudge_inputs |].
  split; [reflexivity |]. split; [reflexivity |].
  destruct (pace_templates p) as (P1 & P2 & P3 & P4 & P5).
  destruct (tone_templates t) as (T1 & T2 & T3).
  repeat (split; [assumption |]).
  split; [reflexivity |].
  split; [apply str_int_reads_back | reflexivity].
Qed.

Lemma speech_nudge_generator_witness :
  _generate_speech_nudge (PaceResult.mk "slow" 110 18)
    (ToneResult.mk "engaging" (1 # 5) "too_loud" (3 # 10) false)
  = "😴 Pace is a bit slow (110 WPM). Try adding more energy."
    ++ " | " ++ "🔊 Volume is quite high. Lower it slightly for comfort.".
Proof.
  destruct (speech_nudge_generator (PaceResult.mk "slow" 110 18)
              (ToneResult.mk "engaging" (1 # 5) "too_loud" (3 # 10) false))
    as (_ & _ & _ & _ & _ & _ & H & _).
  rewrite H; [reflexivity | discriminate].
Defined.

(** C8, as stated, fails on the number of pace templates: of the eight
    pace statuses exactly five have a message, not six; good, error and
    unknown have none. *)
Lemma pace_templates_are_five :
  filter has_pace_message pace_statuses
    = ["too_fast"; "fast"; "slow"; "too_slow"; "unclear"] /\
  List.length (filter has_pace_message pace_statuses) <> 6%nat.
Proof. split; [reflexivity | discriminate]. Qed.

(** C10. The generator has no pace message for the statuses good, error
    and unknown; so a pace result with status error, with a tone result
    that is not monotone and whose energy status is neither too_quiet nor
    too_loud, yields exactly the all-good message, and a recording whose
    transcription fails with a service error is reported to the teacher
    that way. *)
Theorem error_pace_yields_all_good (p : PaceResult.t) (t : ToneResult.t) :
  (In (PaceResult.status p) ["good"; "error"; "unknown"] -> pace_nudges p = []) /\
  (PaceResult.status p = "error" ->
   ToneResult.monotone t = false ->
   ToneResult.energy_status t <> "too_quiet" ->
   ToneResult.energy_status t <> "too_loud" ->
   _generate_speech_nudge p t = "✅ Great speech pace and tone! Keep it up!") /\
  (forall c msg,
     record_audio c = Returned tt ->
     recognize c = Raised (RequestError msg) ->
     ToneResult.monotone (_analyze_tone c) = false ->
     ToneResult.energy_status (_analyze_tone c) <> "too_quiet" ->
     ToneResult.energy_status (_analyze_tone c) <> "too_loud" ->
     SpeechResult.pace (analyze_teacher_speech c) = "error" /\
     SpeechResult.wpm (analyze_teacher_speech c) = 0 /\
     SpeechResult.nudge (analyze_teacher_speech c)
       = "✅ Great speech pace and tone! Keep it up!").
Proof.
  assert (P : forall q, In (PaceResult.status q) ["good"; "error"; "unknown"] ->
                        pace_nudges q = []).
  { intros q H.
    destruct (pace_nudges q) eqn:E; [reflexivity | exfalso].
    assert (N : pace_nudges q <> []) by (rewrite E; discriminate).
    apply pace_nudges_nonempty_iff in N. unfold templated in N.
    simpl in H, N.
    destruct H as [H|[H|[H|[]]]]; rewrite <- H in N;
      destruct N as [N|[N|[N|[N|[N|[]]]]]]; discriminate. }
  assert (G : forall q u, PaceResult.status q = "error" ->
                ToneResult.monotone u = false ->
                ToneResult.energy_status u <> "too_quiet" ->
                ToneResult.energy_status u <> "too_loud" ->
                _generate_speech_nudge q u = all_good).
  { intros q u H1 H2 H3 H4.
    destruct (generate_speech_nudge_unfold q u) as [[E G] | [E G]];
      [assumption | exfalso; apply E]. unfold nudges_of.
    rewrite P by (rewrite H1; simpl; auto).
    destruct (monotone_nudges u) eqn:E1.
    - destruct (energy_nudges u) eqn:E2; [reflexivity | exfalso].
      assert (N : energy_nudges u <> []) by (rewrite E2; discriminate).
      apply energy_nudges_nonempty_iff in N. tauto.
    - exfalso.
      assert (N : monotone_nudges u <> []) by (rewrite E1; discriminate).
      apply monotone_nudges_nonempty_iff in N. congruence. }
  split; [apply P |]. split; [apply G |].
  intros c msg R T H1 H2 H3.
  assert (E : _analyze_pace c = PaceResult.mk "error" 0 0).
  { unfold _analyze_pace, analyze_pace_body. now rewrite T. }
  unfold analyze_teacher_speech. rewrite R. cbn [SpeechResult.pace
    SpeechResult.wpm SpeechResult.nudge]. rewrite E.
  repeat split. now apply G.
Qed.

Lemma error_pace_yields_all_good_witness :
  let c := mkCapture (Returned tt) (Raised (RequestError "connection failed"))
             (Returned (mkLoaded 160000 16000))
             (Returned (mkFeatures (8 # 100) 40 180 45)) in
  SpeechResult.pace (analyze_teacher_speech c) = "error" /\
  SpeechResult.wpm (analyze_teacher_speech c) = 0 /\
  SpeechResult.nudge (analyze_teacher_speech c)
    = "✅ Great speech pace and tone! Keep it up!".
Proof.
  intros c.
  destruct (error_pace_yields_all_good (PaceResult.mk "error" 0 0)
              (_analyze_tone c)) as (_ & _ & H).
  apply (H c "connection failed"); solve [reflexivity | discriminate].
Defined.

(** ** The shared record and the two cycles *)

Lemma live_cons (pc : speech_pc) (l : list speech_pc) :
  live (pc :: l) = (alive pc + live l)%nat.
Proof. unfold live, alive. simpl. now destruct (is_done pc). Qed.

Lemma live_app_started (l : list speech_pc) :
  live (l ++ [Started]) = S (live l).
Proof.
  induction l as [|pc l IH]; [reflexivity |].
  rewrite <- app_comm_cons, !live_cons, IH. lia.
Qed.

Lemma live_update (l : list speech_pc) :
  forall tid pc pc', nth_error l tid = Some pc ->
    (live (update tid pc' l) + alive pc = live l + alive pc')%nat.
Proof.
  induction l as [|h l IH]; intros [|tid] pc pc' H; simpl in H; try discriminate.
  - injection H as ->. simpl. rewrite !live_cons. lia.
  - simpl. rewrite !live_cons. specialize (IH tid pc pc' H). lia.
Qed.

Lemma live_ge_alive (l : list speech_pc) :
  forall tid pc, nth_error l tid = Some pc -> (alive pc <= live l)%nat.
Proof.
  induction l as [|h l IH]; intros [|tid] pc H; simpl in H; try discriminate.
  - injection H as ->. rewrite live_cons. lia.
  - rewrite live_cons. specialize (IH tid pc H). lia.
Qed.

Lemma nth_error_update_same {A} (l : list A) :
  forall n x y, nth_error l n = Some y -> nth_error (update n x l) n = Some x.
Proof.
  induction l as [|h l IH]; intros [|n] x y H; simpl in *; try discriminate;
    [reflexivity | eauto].
Qed.

Lemma nth_error_update_other {A} (l : list A) :
  forall n m x, n <> m -> nth_error (update n x l) m = nth_error l m.
Proof.
  induction l as [|h l IH]; intros [|n] [|m] x H; simpl; try reflexivity;
    [congruence | apply IH; congruence].
Qed.

(** *** What one step of each thread may write *)

Lemma student_step_frame (w : world) (pc : student_pc) (d : dashboard) :
  let d' := snd (student_step w pc d) in
  teacher_fields d' = teacher_fields d /\
  speech_nudge d' = speech_nudge d /\
  analyzing_speech d' = analyzing_speech d.
Proof.
  destruct d, pc; cbv zeta; cbn;
    repeat match goal with
           | |- context [match ?x with _ => _ end] => destruct x
           end; cbn; repeat split; reflexivity.
Qed.

Lemma student_skips_while_busy (w : world) (d : dashboard) :
  analyzing_speech d = true -> student_step w AtPeek d = (AtPeek, d).
Proof. intros H. simpl. now rewrite H. Qed.

Lemma speech_step_flag (w : world) (pc : speech_pc) (d : dashboard) :
  let pc' := fst (speech_step w pc d) in
  let d' := snd (speech_step w pc d) in
  (steps_left pc = S (steps_left pc') \/ pc = Done) /\
  (is_done pc' = false -> analyzing_speech d' = analyzing_speech d) /\
  (is_done pc = false -> is_done pc' = true -> analyzing_speech d' = false).
Proof.
  destruct pc; simpl; try (repeat split; (now left) || (now right) || easy).
  destruct (teacher_capture w); simpl; repeat split; (now left) || easy.
Qed.

(** *** The flag and the tasks *)

Lemma step_task (w : world) (tid : nat) (s : system) (pc : speech_pc) :
  nth_error (tasks s) tid = Some pc -> is_done pc = false ->
  step w (TaskStep tid) s = Some (task_moved w tid pc s).
Proof.
  intros N D. unfold task_moved. simpl. rewrite N.
  destruct pc; try discriminate; now destruct (speech_step w _ (data s)).
Qed.

Lemma step_task_inv (w : world) (tid : nat) (s s' : system) :
  step w (TaskStep tid) s = Some s' ->
  exists pc, nth_error (tasks s) tid = Some pc /\ is_done pc = false /\
             s' = task_moved w tid pc s.
Proof.
  intros H.
  destruct (nth_error (tasks s) tid) as [pc|] eqn:N;
    [| simpl in H; rewrite N in H; discriminate].
  destruct (is_done pc) eqn:D.
  - destruct pc; try discriminate. simpl in H. rewrite N in H. discriminate.
  - exists pc. rewrite (step_task w tid s pc N D) in H. injection H as <-.
    now repeat split.
Qed.

Lemma step_flag_owned (w : world) (l : label) (s s' : system) :
  step w l s = Some s' -> flag_owned s -> flag_owned s'.
Proof.
  unfold flag_owned. destruct l as [| |tid].
  - simpl. destruct (student_step w (student s) (data s)) as [pc d] eqn:E.
    intros H; injection H as <-. simpl.
    destruct (student_step_frame w (student s) (data s)) as (_ & _ & F).
    rewrite E in F. simpl in F. now rewrite F.
  - simpl. intros H; injection H as <-. unfold analyze_speech.
    destruct (analyzing_speech (data s)) eqn:B; simpl.
    + now rewrite B.
    + intros I. rewrite live_app_started, I. reflexivity.
  - intros H I. apply step_task_inv in H. destruct H as (pc & N & D & ->).
    unfold task_moved. simpl.
    pose proof (live_update (tasks s) tid pc
                  (fst (speech_step w pc (data s))) N) as U.
    pose proof (live_ge_alive (tasks s) tid pc N) as L.
    destruct (speech_step_flag w pc (data s)) as (_ & F1 & F2).
    unfold alive in U, L. rewrite D in U, L.
    destruct (is_done (fst (speech_step w pc (data s)))) eqn:D'.
    + rewrite (F2 D eq_refl).
      destruct (analyzing_speech (data s)); lia.
    + rewrite (F1 eq_refl).
      destruct (analyzing_speech (data s)); lia.
Qed.

Lemma run_flag_owned (sched : list (label * world)) :
  forall s s', run sched s = Some s' -> flag_owned s -> flag_owned s'.
Proof.
  induction sched as [|[l w] rest IH]; intros s s' H I; simpl in H.
  - now injection H as <-.
  - destruct (step w l s) as [s1|] eqn:E; [| discriminate].
    eapply IH; [eassumption |]. eapply step_flag_owned; eassumption.
Qed.

Lemma boot_flag_owned (now : Q) : flag_owned (boot now).
Proof. reflexivity. Qed.

Lemma reachable_flag_owned (now : Q) (sched : list (label * world)) (s : system) :
  run sched (boot now) = Some s -> flag_owned s.
Proof. intros H. eapply run_flag_owned; [eassumption | apply boot_flag_owned]. Qed.



(** *** A started task runs to its terminal commit *)

Lemma run_cons (l : label) (w : world) (rest : list (label * world)) (s : system) :
  run ((l, w) :: rest) s
  = match step w l s with Some s' => run rest s' | None => None end.
Proof. reflexivity. Qed.

Lemma task_runs_to_done (w : world) (tid : nat) :
  forall pc s,
    nth_error (tasks s) tid = Some pc -> pc <> Done ->
    exists s',
      run (repeat (TaskStep tid, w) (steps_left pc)) s = Some s' /\
      nth_error (tasks s') tid = Some Done /\
      analyzing_speech (data s') = false /\
      student s' = student s /\
      (forall e, fails_with pc w e ->
         speech_nudge (data s') = "Error analyzing speech: " ++ str_exn e /\
         status (data s') = "Error occurred" /\
         teacher_fields (data s') = teacher_fields (data s)).
Proof.
  assert (T : forall pc s, nth_error (tasks s) tid = Some pc ->
                is_done pc = false ->
                nth_error (tasks (task_moved w tid pc s)) tid
                = Some (fst (speech_step w pc (data s)))).
  { intros pc s N _. unfold task_moved. simpl.
    now apply nth_error_update_same with (y := pc). }
  assert (Last : forall pc s, nth_error (tasks s) tid = Some pc ->
            steps_left pc = 1%nat ->
            exists s', run (repeat (TaskStep tid, w) 1) s = Some s' /\
              s' = task_moved w tid pc s /\
              nth_error (tasks s') tid = Some Done /\
              analyzing_speech (data s') = false).
  { intros pc s N L. exists (task_moved w tid pc s).
    assert (D : is_done pc = false) by (destruct pc; easy).
    cbn [repeat]. rewrite run_cons, (step_task w tid s pc N D).
    split; [reflexivity |]. split; [reflexivity |].
    rewrite (T pc s N D). destruct pc; try discriminate; now split. }
  intros pc s N ND.
  destruct pc as [| |r|e0|]; [| | | |congruence].
  - (* Started: progress write, work, terminal commit *)
    pose (s1 := task_moved w tid Started s).
    assert (N1 : nth_error (tasks s1) tid = Some Recording)
      by (apply (T Started s N); reflexivity).
    pose (s2 := task_moved w tid Recording s1).
    assert (N2 : nth_error (tasks s2) tid
                 = Some (fst (speech_step w Recording (data s1))))
      by (apply (T Recording s1 N1); reflexivity).
    assert (L2 : steps_left (fst (speech_step w Recording (data s1))) = 1%nat)
      by (simpl; now destruct (teacher_capture w)).
    destruct (Last _ s2 N2 L2) as (s' & R & E & ND' & F).
    exists s'. split.
    { cbn [steps_left repeat].
      rewrite run_cons, (step_task w tid s Started N eq_refl). fold s1.
      rewrite run_cons, (step_task w tid s1 Recording N1 eq_refl). fold s2.
      exact R. }
    split; [assumption |]. split; [assumption |].
    split; [now subst s' |].
    intros e [H | [_ H]]; [discriminate |].
    subst s'. unfold s2, s1, task_moved. simpl. rewrite H. simpl.
    now repeat split.
  - (* Recording *)
    pose (s2 := task_moved w tid Recording s).
    assert (N2 : nth_error (tasks s2) tid
                 = Some (fst (speech_step w Recording (data s))))
      by (apply (T Recording s N); reflexivity).
    assert (L2 : steps_left (fst (speech_step w Recording (data s))) = 1%nat)
      by (simpl; now destruct (teacher_capture w)).
    destruct (Last _ s2 N2 L2) as (s' & R & E & ND' & F).
    exists s'. split.
    { cbn [steps_left repeat].
      rewrite run_cons, (step_task w tid s Recording N eq_refl). fold s2.
      exact R. }
    split; [assumption |]. split; [assumption |].
    split; [now subst s' |].
    intros e [H | [_ H]]; [discriminate |].
    subst s'. unfold s2, task_moved. simpl. rewrite H. simpl.
    now repeat split.
  - (* Committing *)
    destruct (Last (Committing r) s N eq_refl) as (s' & R & E & ND' & F).
    exists s'. repeat split; try assumption; try (now subst s');
      destruct H as [H | [[H|H] _]]; discriminate.
  - (* Handling *)
    destruct (Last (Handling e0) s N eq_refl) as (s' & R & E & ND' & F).
    exists s'. split; [assumption |]. split; [assumption |].
    split; [assumption |]. split; [now subst s' |].
    intros e [H | [[H|H] _]]; try discriminate.
    injection H as <-. subst s'. now repeat split.
Qed.

Lemma step_keeps_other_tasks (w : world) (l : label) (s s' : system)
  (tid : nat) (pc : speech_pc) :
  step w l s = Some s' -> is_step_of tid (l, w) = false ->
  nth_error (tasks s) tid = Some pc -> nth_error (tasks s') tid = Some pc.
Proof.
  intros H O N. destruct l as [| |t].
  - simpl in H. destruct (student_step w (student s) (data s)).
    now injection H as <-.
  - simpl in H. injection H as <-. unfold analyze_speech.
    destruct (analyzing_speech (data s)); simpl; [assumption |].
    rewrite nth_error_app1; [assumption |].
    apply nth_error_Some. congruence.
  - apply step_task_inv in H. destruct H as (q & _ & _ & ->).
    unfold task_moved. simpl. rewrite nth_error_update_other; [assumption |].
    unfold is_step_of in O. simpl in O. now apply Nat.eqb_neq in O.
Qed.

Lemma step_advances_own_task (w : world) (s s' : system)
  (tid : nat) (pc : speech_pc) :
  step w (TaskStep tid) s = Some s' -> nth_error (tasks s) tid = Some pc ->
  exists pc', nth_error (tasks s') tid = Some pc' /\
              steps_left pc = S (steps_left pc').
Proof.
  intros H N. apply step_task_inv in H. destruct H as (q & N' & D & ->).
  rewrite N in N'. injection N' as <-.
  exists (fst (speech_step w pc (data s))). split.
  - unfold task_moved. simpl. now apply nth_error_update_same with (y := pc).
  - destruct (speech_step_flag w pc (data s)) as ([L | L] & _); [assumption |].
    subst pc. discriminate.
Qed.

Lemma run_counts_task_steps (tid : nat) (sched : list (label * world)) :
  forall s s' pc,
    run sched s = Some s' -> nth_error (tasks s) tid = Some pc ->
    exists pc', nth_error (tasks s') tid = Some pc' /\
                (steps_left pc' + count_task tid sched = steps_left pc)%nat.
Proof.
  induction sched as [|[l w] rest IH]; intros s s' pc R N.
  - injection R as <-. exists pc. split; [assumption |].
    unfold count_task. simpl. lia.
  - rewrite run_cons in R. destruct (step w l s) as [s1|] eqn:E; [| discriminate].
    unfold count_task. simpl filter.
    destruct (is_step_of tid (l, w)) eqn:O.
    + assert (l = TaskStep tid) as ->.
      { unfold is_step_of in O. simpl in O. destruct l; try discriminate.
        apply Nat.eqb_eq in O. now subst. }
      destruct (step_advances_own_task w s s1 tid pc E N) as (pc1 & N1 & L1).
      destruct (IH s1 s' pc1 R N1) as (pc' & N' & L').
      exists pc'. split; [assumption |].
      unfold count_task in L'. simpl. lia.
    + pose proof (step_keeps_other_tasks w l s s1 tid pc E O N) as N1.
      destruct (IH s1 s' pc R N1) as (pc' & N' & L').
      exists pc'. split; [assumption |]. exact L'.
Qed.

Lemma steps_left_zero (pc : speech_pc) : steps_left pc = 0%nat -> pc = Done.
Proof. destruct pc; simpl; congruence. Qed.

(** C3. In every reachable state the flag is clear whenever no speech
    task is in flight. A task that has been started and is not yet done
    can always take its next step; given its remaining steps one after
    the other it ends at its terminal commit with the flag cleared, and
    when its work raised an exception the error message and the error
    status are in the record. Under any interleaving with the other
    threads it is done once it has taken that many steps. *)
Theorem speech_cycle_clears_busy_flag
  (now : Q) (sched : list (label * world)) (s : system) :
  run sched (boot now) = Some s ->
  (live (tasks s) = 0%nat -> analyzing_speech (data s) = false) /\
  (forall tid pc w,
     nth_error (tasks s) tid = Some pc -> pc <> Done ->
     exists s',
       run (repeat (TaskStep tid, w) (steps_left pc)) s = Some s' /\
       nth_error (tasks s') tid = Some Done /\
       live (tasks s') = 0%nat /\
       analyzing_speech (data s') = false /\
       (forall e, fails_with pc w e ->
          speech_nudge (data s') = "Error analyzing speech: " ++ str_exn e /\
          status (data s') = "Error occurred")) /\
  (forall tid pc rest s',
     nth_error (tasks s) tid = Some pc ->
     run rest s = Some s' ->
     count_task tid rest = steps_left pc ->
     nth_error (tasks s') tid = Some Done /\
     (live (tasks s') = 0%nat -> analyzing_speech (data s') = false)).
Proof.
  intros R. pose proof (reachable_flag_owned now sched s R) as I.
  split; [| split].
  - intros L. unfold flag_owned in I. rewrite L in I.
    destruct (analyzing_speech (data s)); [discriminate | reflexivity].
  - intros tid pc w N ND.
    destruct (task_runs_to_done w tid pc s N ND) as (s' & R' & N' & F & _ & X).
    exists s'. split; [assumption |]. split; [assumption |].
    split; [| split; [assumption |]].
    + pose proof (run_flag_owned _ _ _ R' I) as I'.
      unfold flag_owned in I'. now rewrite F in I'.
    + intros e H. destruct (X e H) as (X1 & X2 & _). now split.
  - intros tid pc rest s' N R' C.
    destruct (run_counts_task_steps tid rest s s' pc R' N) as (pc' & N' & L).
    assert (pc' = Done) as -> by (apply steps_left_zero; lia).
    split; [assumption |].
    intros L0. pose proof (run_flag_owned _ _ _ R' I) as I'.
    unfold flag_owned in I'. rewrite L0 in I'.
    destruct (analyzing_speech (data s')); [discriminate | reflexivity].
Qed.

(** *** Concrete environments *)

Lemma speech_cycle_clears_busy_flag_witness :
  exists s',
    run (repeat (TaskStep 0, w_broken) 3) (snd (analyze_speech (boot 0)))
      = Some s' /\
    analyzing_speech (data s') = false /\
    speech_nudge (data s') = "Error analyzing speech: microphone busy" /\
    status (data s') = "Error occurred".
Proof.
  destruct (speech_cycle_clears_busy_flag 0 [(Request, w_broken)]
              (snd (analyze_speech (boot 0))) eq_refl) as (_ & H & _).
  destruct (H 0%nat Started w_broken eq_refl ltac:(discriminate))
    as (s' & R & _ & _ & F & X).
  exists s'. split; [exact R |]. split; [exact F |].
  apply (X (Exception "microphone busy")).
  right. split; [now left | reflexivity].
Defined.

(** *** Who writes the teacher fields *)

Lemma student_step_keeps_speech_fields (w : world) (s s' : system) :
  step w StudentStep s = Some s' ->
  speech_fields (data s') = speech_fields (data s) /\ tasks s' = tasks s.
Proof.
  simpl. destruct (student_step w (student s) (data s)) as [pc d] eqn:E.
  intros H; injection H as <-. simpl.
  destruct (student_step_frame w (student s) (data s)) as (F1 & F2 & _).
  rewrite E in F1, F2. simpl in F1, F2. unfold speech_fields.
  unfold teacher_fields in F1. injection F1 as -> -> ->. now rewrite F2.
Qed.

Lemma student_run_keeps_speech_fields (sched : list (label * world)) :
  forall s s', forallb is_student sched = true -> run sched s = Some s' ->
    speech_fields (data s') = speech_fields (data s) /\ tasks s' = tasks s.
Proof.
  induction sched as [|[l w] rest IH]; intros s s' A R.
  - injection R as <-. now split.
  - simpl in A. apply andb_true_iff in A. destruct A as [A1 A2].
    destruct l; try discriminate.
    rewrite run_cons in R.
    destruct (step w StudentStep s) as [s1|] eqn:E; [| discriminate].
    destruct (student_step_keeps_speech_fields w s s1 E) as [F T].
    destruct (IH s1 s' A2 R) as [F' T']. split; congruence.
Qed.

Lemma teacher_fields_change_at_commit (w : world) (l : label) (s s' : system) :
  step w l s = Some s' ->
  teacher_fields (data s') <> teacher_fields (data s) ->
  commits_results l s.
Proof.
  intros H C. destruct l as [| |tid].
  - exfalso. apply C.
    destruct (student_step_keeps_speech_fields w s s' H) as [F _].
    unfold speech_fields in F. unfold teacher_fields. congruence.
  - exfalso. apply C. simpl in H. injection H as <-.
    unfold analyze_speech. now destruct (analyzing_speech (data s)).
  - apply step_task_inv in H. destruct H as (pc & N & D & ->).
    destruct pc as [| |r|e|]; try discriminate.
    + exfalso. now apply C.
    + exfalso. apply C. unfold task_moved. simpl.
      now destruct (teacher_capture w).
    + now exists tid, r.
    + exfalso. now apply C.
Qed.

Lemma speech_nudge_written_by (w : world) (l : label) (s s' : system) :
  step w l s = Some s' ->
  speech_nudge (data s') <> speech_nudge (data s) ->
  writes_speech_nudge l s (speech_nudge (data s')).
Proof.
  intros H C. unfold writes_speech_nudge. destruct l as [| |tid].
  - exfalso. apply C.
    destruct (student_step_keeps_speech_fields w s s' H) as [F _].
    unfold speech_fields in F. congruence.
  - simpl in H. injection H as <-. revert C. unfold analyze_speech.
    destruct (analyzing_speech (data s)); simpl; intros C.
    + exfalso. now apply C.
    + left. now repeat split.
  - apply step_task_inv in H. destruct H as (pc & N & D & ->).
    right. destruct pc as [| |r|e|]; try discriminate.
    + left. now exists tid.
    + exfalso. apply C. unfold task_moved. simpl.
      now destruct (teacher_capture w).
    + right. left. now exists tid, r.
    + right. right. now exists tid, e.
Qed.

Lemma commit_writes_result
  (w : world) (tid : nat) (r : SpeechResult.t) (s s' : system) :
  nth_error (tasks s) tid = Some (Committing r) ->
  step w (TaskStep tid) s = Some s' ->
  speech_fields (data s')
  = (SpeechResult.pace r, SpeechResult.wpm r, SpeechResult.tone r,
     SpeechResult.nudge r).
Proof.
  intros N H. rewrite (step_task w tid s (Committing r) N eq_refl) in H.
  now injection H as <-.
Qed.

(** C4, as the code has it. No step of the student cycle writes
    teacher_pace, teacher_wpm, teacher_tone or speech_nudge, so they are
    unchanged across any number of student iterations. teacher_pace,
    teacher_wpm and teacher_tone change only at the step in which a speech
    task commits its results, and that step sets the four fields to the
    result. speech_nudge changes only in four steps of the speech cycle:
    the accepted trigger writes 'Preparing to record...', the first step
    of the task writes the recording notice, the terminal commit writes
    the nudge of the result and the error commit writes the error
    message; the analysis step in between writes nothing. *)
Theorem student_cycle_never_writes_teacher_fields :
  (forall w s s',
     step w StudentStep s = Some s' ->
     speech_fields (data s') = speech_fields (data s)) /\
  (forall sched s s',
     forallb is_student sched = true -> run sched s = Some s' ->
     speech_fields (data s') = speech_fields (data s)) /\
  (forall w l s s',
     step w l s = Some s' ->
     teacher_fields (data s') <> teacher_fields (data s) ->
     commits_results l s) /\
  (forall w l s s',
     step w l s = Some s' ->
     speech_nudge (data s') <> speech_nudge (data s) ->
     writes_speech_nudge l s (speech_nudge (data s'))) /\
  (forall w tid r s s',
     nth_error (tasks s) tid = Some (Committing r) ->
     step w (TaskStep tid) s = Some s' ->
     speech_fields (data s')
     = (SpeechResult.pace r, SpeechResult.wpm r, SpeechResult.tone r,
        SpeechResult.nudge r)) /\
  (forall w tid s s',
     nth_error (tasks s) tid = Some Recording ->
     step w (TaskStep tid) s = Some s' ->
     data s' = data s).
Proof.
  split; [| split; [| split; [| split; [| split]]]].
  - intros w s s' H. now apply (student_step_keeps_speech_fields w s s').
  - intros sched s s' A R. now apply (student_run_keeps_speech_fields sched s s').
  - apply teacher_fields_change_at_commit.
  - apply speech_nudge_written_by.
  - apply commit_writes_result.
  - intros w tid s s' N H.
    rewrite (step_task w tid s Recording N eq_refl) in H.
    injection H as <-. unfold task_moved. simpl.
    now destruct (teacher_capture w).
Qed.

Lemma student_cycle_never_writes_teacher_fields_witness :
  exists s',
    run (repeat (StudentStep, w_happy) 6) (boot 0) = Some s' /\
    engagement_score (data s') = 80 /\
    speech_fields (data s') = ("unknown", 0, "unknown", "").
Proof.
  destruct student_cycle_never_writes_teacher_fields as (_ & H & _).
  eexists. split; [reflexivity |]. split; [reflexivity |].
  rewrite (H (repeat (StudentStep, w_happy) 6) (boot 0) _ eq_refl eq_refl).
  reflexivity.
Defined.

(** C4, as stated, fails for speech_nudge: the accepted trigger rewrites
    it before any result exists, and that step is no commit of results. *)
Lemma trigger_rewrites_speech_nudge :
  exists s',
    step w_happy Request (boot 0) = Some s' /\
    speech_nudge (data (boot 0)) = "" /\
    speech_nudge (data s') = "Preparing to record..." /\
    speech_fields (data s') <> speech_fields (data (boot 0)) /\
    ~ commits_results Request (boot 0).
Proof.
  eexists. split; [reflexivity |]. repeat split; try discriminate.
  intros (tid & r & H & _). discriminate.
Qed.

(** *** The student cycle against a speech cycle in flight *)

(** C1, on the schedule where the trigger arrives after the student
    thread has passed its check: the flag is set and one task is in
    flight, and the student iteration goes on to write the record (first
    the status, later score, emotion, audio state, nudge and status) while
    the speech cycle owns the flag. An iteration that finds the flag set
    at its check writes nothing. *)
Theorem student_cycle_overlaps_speech_cycle :
  (forall w s s',
     student s = AtPeek -> analyzing_speech (data s) = true ->
     step w StudentStep s = Some s' -> s' = s) /\
  (exists s s',
     run late_trigger (boot 0) = Some s /\
     analyzing_speech (data s) = true /\
     tasks s = [Started] /\
     status (data s) = "Get ready to speak..." /\
     step w_happy StudentStep s = Some s' /\
     analyzing_speech (data s') = true /\
     status (data s') = "Analyzing students...") /\
  (exists s,
     run overlapped_iteration (boot 0) = Some s /\
     analyzing_speech (data s) = true /\
     tasks s = [Recording] /\
     status (data s) = "Active" /\
     engagement_score (data s) = 80 /\
     emotion (data s) = "happy" /\
     audio_state (data s) = "active").
Proof.
  split; [| split].
  - intros w s s' P B H. simpl in H. rewrite P in H.
    rewrite (student_skips_while_busy w (data s) B) in H.
    injection H as <-. destruct s. simpl in P. now subst.
  - do 2 eexists. split; [reflexivity |]. now repeat split.
  - eexists. split; [reflexivity |]. now repeat split.
Qed.

(** *** Failures *)




(** * Further properties of the code *)

(** ** [_analyze_pace] *)

Lemma truediv_defined (num den : Q) :
  ~ (den == 0)%Q -> truediv num den = ([Div num den], Returned (num / den)%Q).
Proof.
  intros H. unfold truediv.
  destruct (Qeq_bool den 0) eqn:E; [| reflexivity].
  apply Qeq_bool_eq in E. contradiction.
Qed.

Lemma categorize_pace_comp (x y : Q) :
  (x == y)%Q -> categorize_pace x = categorize_pace y.
Proof.
  intros H. unfold categorize_pace, gtb, ltb.
  assert (A : forall k, Qle_bool x k = Qle_bool y k)
    by (intros k; now rewrite H).
  assert (B : forall k, Qle_bool k x = Qle_bool k y)
    by (intros k; now rewrite H).
  now rewrite !A, !B.
Qed.

Lemma categorize_pace_range (wpm : Q) :
  In (categorize_pace wpm) ["too_fast"; "fast"; "too_slow"; "slow"; "good"].
Proof.
  unfold categorize_pace.
  repeat match goal with
         | |- context [if ?b then _ else _] => destruct b
         end; simpl; auto 10.
Qed.

Lemma int_nonneg (x : Q) : (0 <= x)%Q -> 0 <= int x.
Proof.
  intros H. unfold int. apply Z.quot_pos; [| reflexivity].
  unfold Qle in H. simpl in H. lia.
Qed.

Lemma result_bind {A B} (m : M A) (f : A -> M B) :
  result (bind m f)
  = match result m with
    | Returned a => result (f a)
    | Raised e => Raised e
    end.
Proof.
  destruct m as [l [a|e]]; simpl; [| reflexivity].
  now destruct (f a).
Qed.

Lemma result_truediv (num den : Q) :
  result (truediv num den)
  = if Qeq_bool den 0 then Raised ZeroDivisionError
    else Returned (num / den)%Q.
Proof. reflexivity. Qed.

(** What the body of [_analyze_pace] comes to, handler aside. *)
Lemma analyze_pace_body_result (c : capture) :
  result (analyze_pace_body c)
  = match recognize c with
    | Raised e => Raised e
    | Returned words =>
        let n := Z.of_nat (List.length words) in
        match load c with
        | Raised e => Raised e
        | Returned a =>
            let d := (inject_Z (len_y a) / inject_Z (sample_rate a) / 60)%Q in
            if Qeq_bool (inject_Z (sample_rate a)) 0
            then Raised ZeroDivisionError
            else if gtb d 0 then
              if Qeq_bool d 0 then Raised ZeroDivisionError
              else Returned (PaceResult.mk (categorize_pace (inject_Z n / d))
                               (int (inject_Z n / d)) n)
            else Returned (PaceResult.mk (categorize_pace 0) (int 0) n)
        end
    end.
Proof.
  unfold analyze_pace_body. rewrite result_bind.
  destruct (recognize c) as [words|e]; [| reflexivity].
  cbn [lift result snd]. rewrite result_bind.
  destruct (load c) as [a|e]; [| reflexivity].
  cbn [lift result snd]. cbv zeta.
  change (snd (bind (truediv (inject_Z (len_y a)) (inject_Z (sample_rate a))) ?f))
    with (result (bind (truediv (inject_Z (len_y a)) (inject_Z (sample_rate a))) f)).
  rewrite result_bind, result_truediv.
  destruct (Qeq_bool (inject_Z (sample_rate a)) 0); [reflexivity |].
  rewrite result_bind, result_truediv. change (Qeq_bool 60 0) with false.
  cbn iota. rewrite result_bind. unfold words_per_minute.
  destruct (gtb (inject_Z (len_y a) / inject_Z (sample_rate a) / 60) 0).
  - rewrite result_truediv.
    now destruct (Qeq_bool (inject_Z (len_y a) / inject_Z (sample_rate a) / 60) 0).
  - reflexivity.
Qed.

(** The body of [_analyze_pace] either raises or returns the
    classification of a rate that is not negative. *)
Lemma analyze_pace_body_cases (c : capture) :
  (exists e, result (analyze_pace_body c) = Raised e) \/
  (exists q words,
     recognize c = Returned words /\ (0 <= q)%Q /\
     result (analyze_pace_body c)
     = Returned (PaceResult.mk (categorize_pace q) (int q)
                   (Z.of_nat (List.length words)))).
Proof.
  rewrite analyze_pace_body_result.
  destruct (recognize c) as [words|e]; [| left; now exists e].
  destruct (load c) as [a|e]; [| left; now exists e].
  cbv zeta.
  set (d := (inject_Z (len_y a) / inject_Z (sample_rate a) / 60)%Q).
  destruct (Qeq_bool (inject_Z (sample_rate a)) 0);
    [left; now exists ZeroDivisionError |].
  destruct (gtb d 0) eqn:G.
  - destruct (Qeq_bool d 0); [left; now exists ZeroDivisionError |].
    right. exists (inject_Z (Z.of_nat (List.length words)) / d)%Q, words.
    split; [reflexivity |]. split; [| reflexivity].
    apply gtb_true_iff in G. unfold Qdiv.
    apply Qmult_le_0_compat.
    + unfold Qle. simpl. lia.
    + apply Qinv_le_0_compat. now apply Qlt_le_weak.
  - right. exists 0%Q, words. split; [reflexivity |].
    split; [apply Qle_refl | reflexivity].
Qed.

(** X1. Whatever the recogniser and the loader do, [_analyze_pace]
    returns one of seven statuses (never unknown) with a rate and a word
    count that are not negative, and the two failure statuses come with
    rate 0 and word count 0. *)
Theorem analyze_pace_result_range (c : capture) :
  In (PaceResult.status (_analyze_pace c)) pace_outcomes /\
  0 <= PaceResult.wpm (_analyze_pace c) /\
  0 <= PaceResult.word_count (_analyze_pace c) /\
  (In (PaceResult.status (_analyze_pace c)) ["unclear"; "error"] ->
     PaceResult.wpm (_analyze_pace c) = 0 /\
     PaceResult.word_count (_analyze_pace c) = 0).
Proof.
  unfold _analyze_pace.
  destruct (analyze_pace_body_cases c) as [[e H] | (q & words & _ & Q & H)];
    rewrite H.
  - destruct e; simpl; repeat split; auto 10; lia.
  - cbn [PaceResult.status PaceResult.wpm PaceResult.word_count].
    split; [| split; [now apply int_nonneg | split; [lia |]]].
    + pose proof (categorize_pace_range q) as R. unfold pace_outcomes.
      simpl in R |- *. tauto.
    + intros F. exfalso. pose proof (categorize_pace_range q) as R.
      simpl in R, F.
      destruct F as [F|[F|[]]]; rewrite <- F in R;
        destruct R as [R|[R|[R|[R|[R|[]]]]]]; discriminate.
Qed.

Lemma int_floor (x : Q) : (0 <= x)%Q -> int x = Qfloor x.
Proof.
  intros H. destruct x as [n d]. unfold int, Qfloor. simpl.
  apply Z.quot_div_nonneg; [| reflexivity].
  unfold Qle in H. simpl in H. lia.
Qed.

Lemma int_comp (x y : Q) : (0 <= x)%Q -> (x == y)%Q -> int x = int y.
Proof.
  intros P E. rewrite (int_floor x P).
  rewrite int_floor by (now rewrite <- E).
  now rewrite E.
Qed.

Lemma inject_Z_pos (z : Z) : 0 < z -> (0 < inject_Z z)%Q.
Proof. intros H. unfold Qlt. simpl. lia. Qed.

Lemma inject_Z_nonzero (z : Z) : 0 < z -> ~ (inject_Z z == 0)%Q.
Proof. intros H E. unfold Qeq in E. simpl in E. lia. Qed.

(** The rate of [n] words in [len] samples at [sr] samples a second. *)
Lemma pace_rate_value (n len sr : Z) :
  0 <= n -> 0 < len -> 0 < sr ->
  let d := (inject_Z len / inject_Z sr / 60)%Q in
  (0 < d)%Q /\
  (inject_Z n / d == (60 * n * sr) # Z.to_pos len)%Q /\
  (0 <= inject_Z n / d)%Q.
Proof.
  intros Hn Hl Hs d.
  pose proof (inject_Z_pos len Hl) as Pl.
  pose proof (inject_Z_pos sr Hs) as Ps.
  pose proof (inject_Z_nonzero len Hl) as Nl.
  pose proof (inject_Z_nonzero sr Hs) as Ns.
  assert (D : (0 < d)%Q).
  { unfold d, Qdiv. apply Qmult_lt_0_compat; [| reflexivity].
    apply Qmult_lt_0_compat; [assumption |].
    now apply Qinv_lt_0_compat. }
  split; [assumption |]. split.
  - rewrite Qmake_Qdiv, !inject_Z_mult, Z2Pos.id by assumption.
    unfold d. field. repeat split; assumption.
  - unfold Qdiv. apply Qmult_le_0_compat.
    + unfold Qle. simpl. lia.
    + apply Qinv_le_0_compat. now apply Qlt_le_weak.
Qed.

(** In the exact arithmetic of the model: when the transcription returns
    and the audio has a positive number of samples at a positive rate,
    the rate is 60 * words * rate / samples. The program computes it in
    three rounded float divisions, so this is used below only where
    those divisions are exact. *)
Lemma analyze_pace_rate
  (c : capture) (words : list string) (len sr : Z) :
  recognize c = Returned words ->
  load c = Returned (mkLoaded len sr) ->
  0 < len -> 0 < sr ->
  let n := Z.of_nat (List.length words) in
  _analyze_pace c
  = PaceResult.mk (categorize_pace ((60 * n * sr) # Z.to_pos len))
      ((60 * n * sr) / len) n.
Proof.
  intros R L Hl Hs n.
  destruct (pace_rate_value n len sr ltac:(lia) Hl Hs) as (D & E & P).
  unfold _analyze_pace. rewrite analyze_pace_body_result, R, L.
  cbn [len_y sample_rate]. cbv zeta. fold n.
  set (d := (inject_Z len / inject_Z sr / 60)%Q) in *.
  destruct (Qeq_bool (inject_Z sr) 0) eqn:Z0;
    [apply Qeq_bool_eq in Z0; now apply inject_Z_nonzero in Z0 |].
  assert (G : gtb d 0 = true) by now apply gtb_true_iff.
  rewrite G.
  destruct (Qeq_bool d 0) eqn:Z1;
    [apply Qeq_bool_eq in Z1; rewrite Z1 in D; now apply Qlt_irrefl in D |].
  f_equal.
  - now apply categorize_pace_comp.
  - rewrite (int_comp _ _ P E), int_floor.
    + unfold Qfloor. now rewrite Z2Pos.id.
    + now rewrite <- E.
Qed.

(** Comparisons of integers read as rationals. *)
Ltac q_int := unfold Qlt, Qle, Qeq; cbn [Qnum Qden inject_Z]; lia.

(** X3. For the recording the application makes (ten seconds at 16 kHz),
    the reported wpm is six times the number of transcribed words, so
    the pace status depends on the word count alone: more than 30 words
    too_fast, 27 to 30 fast, 20 to 26 good, 17 to 19 slow, fewer than
    17 too_slow. *)
Theorem ten_second_recording_pace (c : capture) (words : list string) :
  recognize c = Returned words ->
  load c = Returned (mkLoaded (recorded_samples 10 16000) 16000) ->
  let n := Z.of_nat (List.length words) in
  _analyze_pace c = PaceResult.mk (pace_by_words n) (6 * n) n.
Proof.
  intros R L n.
  change (recorded_samples 10 16000) with 160000 in L.
  rewrite (analyze_pace_rate c words 160000 16000 R L) by reflexivity.
  fold n. f_equal.
  - rewrite (categorize_pace_comp _ (inject_Z (6 * n)))
      by (unfold Qeq; cbn [Qnum Qden inject_Z];
          change (Z.pos (Z.to_pos 160000)) with 160000; lia).
    unfold pace_by_words.
    destruct (Z.ltb_spec 30 n); [apply pace_too_fast; q_int |].
    destruct (Z.ltb_spec 26 n); [apply pace_fast; q_int |].
    destruct (Z.ltb_spec n 17); [apply pace_too_slow; q_int |].
    destruct (Z.ltb_spec n 20); [apply pace_slow; q_int |].
    apply pace_good; q_int.
  - replace (60 * n * 16000) with (6 * n * 160000) by lia.
    now apply Z.div_mul.
Qed.

Lemma ten_second_recording_pace_witness :
  _analyze_pace lesson = PaceResult.mk "fast" 180 30.
Proof.
  apply (ten_second_recording_pace lesson (repeat "word" 30)); reflexivity.
Defined.

(** ** [_analyze_tone] *)

Lemma categorize_energy_range (energy : Q) :
  In (categorize_energy energy) ["too_quiet"; "quiet"; "good"; "too_loud"].
Proof.
  unfold categorize_energy.
  repeat match goal with
         | |- context [if ?b then _ else _] => destruct b
         end; simpl; auto 10.
Qed.

(** X4. Over every path of [_analyze_tone], failure included, the
    monotone flag is set exactly when the status is monotone, the status
    is one of monotone, engaging, unknown, and the status is unknown
    exactly when the energy status is unknown, which happens exactly when
    feature extraction raised. *)
Theorem analyze_tone_consistent (c : capture) :
  let t := _analyze_tone c in
  In (ToneResult.status t) tone_statuses /\
  In (ToneResult.energy_status t) energy_statuses /\
  (ToneResult.monotone t = true <-> ToneResult.status t = "monotone") /\
  (ToneResult.status t = "unknown" <-> ToneResult.energy_status t = "unknown") /\
  (ToneResult.status t = "unknown" <-> exists e, extract c = Raised e).
Proof.
  unfold _analyze_tone, tone_statuses, energy_statuses.
  destruct (extract c) as [f|e]; cbv zeta.
  - pose proof (categorize_energy_range (rms_mean f)) as R.
    assert (U : categorize_energy (rms_mean f) <> "unknown").
    { intros E. rewrite E in R. simpl in R.
      destruct R as [R|[R|[R|[R|[]]]]]; discriminate. }
    destruct (ltb (pitch_variation_of f) (1 # 10)); simpl;
      (split; [auto 10 |]); (split; [simpl in R; tauto |]);
      (split; [split; congruence |]);
      (split; [split; [discriminate | intros E; now apply U in E] |]);
      (split; [discriminate | intros [e E]; discriminate]).
  - simpl. repeat split; auto 10; try discriminate. now exists e.
Qed.

(** X5. A recording in which no frame has a voiced pitch (silence, for
    one) is classified monotone with pitch variation 0, whatever its
    energy, and whatever the pace result the generated nudge then
    contains the monotone message and is never the all-good message. *)
Theorem unvoiced_recording_is_monotone (c : capture) (f : features) :
  extract c = Returned f ->
  voiced f = 0%nat ->
  ToneResult.status (_analyze_tone c) = "monotone" /\
  ToneResult.monotone (_analyze_tone c) = true /\
  ToneResult.pitch_variation (_analyze_tone c) = 0%Q /\
  ToneResult.energy (_analyze_tone c) = rms_mean f /\
  (forall p,
     In "📉 Your tone sounds monotonous. Try varying your pitch and enthusiasm!"
       (nudges_of p (_analyze_tone c)) /\
     _generate_speech_nudge p (_analyze_tone c)
     = join " | " (nudges_of p (_analyze_tone c)) /\
     _generate_speech_nudge p (_analyze_tone c) <> all_good).
Proof.
  intros X V.
  assert (E : _analyze_tone c
              = ToneResult.mk "monotone" (rms_mean f)
                  (categorize_energy (rms_mean f)) 0 true).
  { unfold _analyze_tone. rewrite X. cbv zeta.
    unfold pitch_variation_of. rewrite V. reflexivity. }
  rewrite E. cbn [ToneResult.status ToneResult.monotone
                  ToneResult.pitch_variation ToneResult.energy].
  repeat (split; [reflexivity |]).
  intros p.
  set (t := ToneResult.mk "monotone" (rms_mean f)
              (categorize_energy (rms_mean f)) 0 true).
  assert (I : In "📉 Your tone sounds monotonous. Try varying your pitch and enthusiasm!"
                (nudges_of p t)).
  { unfold nudges_of. apply in_or_app. right. apply in_or_app. left.
    simpl. now left. }
  assert (N : nudges_of p t <> []) by (intros Z; now rewrite Z in I).
  split; [assumption |].
  destruct (generate_speech_nudge_unfold p t) as [[Z _] | [_ G]];
    [contradiction |].
  split; [assumption |]. rewrite G. now apply joined_is_not_all_good.
Qed.

Lemma unvoiced_recording_is_monotone_witness :
  let c := mkCapture (Returned tt) (Raised UnknownValueError)
             (Returned (mkLoaded 160000 16000))
             (Returned (mkFeatures (1 # 1000) 0 0 0)) in
  ToneResult.status (_analyze_tone c) = "monotone" /\
  ToneResult.monotone (_analyze_tone c) = true.
Proof.
  intros c.
  destruct (unvoiced_recording_is_monotone c (mkFeatures (1 # 1000) 0 0 0)
              eq_refl eq_refl) as (S & M & _).
  split; [exact S | exact M].
Defined.

(** ** [analyze_teacher_speech] *)

Lemma analyze_pace_fields (c : capture) :
  In (PaceResult.status (_analyze_pace c)) pace_outcomes /\
  0 <= PaceResult.wpm (_analyze_pace c).
Proof.
  unfold _analyze_pace.
  destruct (analyze_pace_body_cases c) as [[e H] | (q & words & _ & Q & H)];
    rewrite H.
  - destruct e; simpl; split; auto 10; lia.
  - cbn [PaceResult.status PaceResult.wpm].
    split; [| now apply int_nonneg].
    pose proof (categorize_pace_range q) as R. unfold pace_outcomes.
    simpl in R |- *. tauto.
Qed.

Lemma analyze_tone_status (c : capture) :
  In (ToneResult.status (_analyze_tone c)) tone_statuses.
Proof.
  unfold _analyze_tone, tone_statuses. destruct (extract c) as [f|e].
  - cbv zeta. destruct (ltb (pitch_variation_of f) (1 # 10)); simpl; auto.
  - simpl. auto.
Qed.

Lemma analyze_teacher_speech_ok (c : capture) :
  result_ok (analyze_teacher_speech c).
Proof.
  unfold result_ok, analyze_teacher_speech.
  destruct (record_audio c); cbv zeta;
    cbn [SpeechResult.pace SpeechResult.wpm SpeechResult.tone].
  - destruct (analyze_pace_fields c) as [P W].
    split; [| split; [assumption | apply analyze_tone_status]].
    unfold pace_outcomes in P. unfold pace_statuses. simpl in P |- *. tauto.
  - unfold pace_statuses, tone_statuses. simpl. repeat split; auto 10; lia.
Qed.

Lemma generate_speech_nudge_nonempty (p : PaceResult.t) (t : ToneResult.t) :
  _generate_speech_nudge p t <> "".
Proof.
  destruct (generate_speech_nudge_unfold p t) as [[_ G] | [N G]]; rewrite G;
    [discriminate |].
  revert N.
  unfold nudges_of, pace_nudges, monotone_nudges, energy_nudges, join.
  generalize (str_int (PaceResult.wpm p)). intros w.
  repeat match goal with
         | |- context [if ?b then _ else _] => destruct b
         end; cbn [app String.concat append]; intros H;
    solve [discriminate | now contradiction H].
Qed.

(** X6. Whatever the microphone, the recogniser and the extractor do,
    [analyze_teacher_speech] returns a pace among the eight statuses, a
    wpm that is not negative, a tone among monotone, engaging, unknown,
    and a nudge that is not empty; the pace is unknown exactly when the
    recording itself raised, and then tone is unknown and wpm is 0. *)
Theorem analyze_teacher_speech_result_range (c : capture) :
  let r := analyze_teacher_speech c in
  In (SpeechResult.pace r) pace_statuses /\
  0 <= SpeechResult.wpm r /\
  In (SpeechResult.tone r) tone_statuses /\
  SpeechResult.nudge r <> "" /\
  (SpeechResult.pace r = "unknown" <-> exists e, record_audio c = Raised e) /\
  (SpeechResult.pace r = "unknown" ->
     SpeechResult.tone r = "unknown" /\ SpeechResult.wpm r = 0).
Proof.
  intros r. destruct (analyze_teacher_speech_ok c) as (P & W & T).
  fold r in P, W, T. repeat (split; [assumption |]).
  unfold r, analyze_teacher_speech.
  destruct (record_audio c) as [u|e]; cbv zeta;
    cbn [SpeechResult.pace SpeechResult.wpm SpeechResult.tone SpeechResult.nudge].
  - assert (U : PaceResult.status (_analyze_pace c) <> "unknown").
    { destruct (analyze_pace_fields c) as [Q _]. intros E. rewrite E in Q.
      unfold pace_outcomes in Q. simpl in Q.
      destruct Q as [Q|[Q|[Q|[Q|[Q|[Q|[Q|[]]]]]]]]; discriminate. }
    split; [apply generate_speech_nudge_nonempty |].
    split; [split; [intros E; now apply U in E | intros [e E]; discriminate] |].
    intros E. now apply U in E.
  - split; [discriminate |]. split; [split; [now exists e | reflexivity] |].
    now split.
Qed.

(** ** [check_classroom_audio] *)

Lemma sum_abs_nonneg (l : list Q) : (0 <= sum_abs l)%Q.
Proof.
  induction l as [|x l IH]; simpl; [apply Qle_refl |].
  pose proof (Qabs_nonneg x). lra.
Qed.

Lemma sum_abs_le (a : list Q) :
  forall b, Forall2 (fun x y => (Qabs x <= Qabs y)%Q) a b ->
            (sum_abs a <= sum_abs b)%Q.
Proof.
  induction a as [|x a IH]; intros b F; inversion F; subst; simpl.
  - apply Qle_refl.
  - specialize (IH _ H3). lra.
Qed.

Lemma sum_abs_zero (l : list Q) :
  Forall (fun x => (x == 0)%Q) l -> (sum_abs l == 0)%Q.
Proof.
  induction 1 as [|x l E _ IH]; simpl; [reflexivity |].
  rewrite IH, E. reflexivity.
Qed.

Lemma length_pos (l : list Q) :
  l <> [] -> (0 < inject_Z (Z.of_nat (List.length l)))%Q.
Proof.
  intros H. destruct l; [contradiction |].
  apply inject_Z_pos. simpl List.length. lia.
Qed.

(** Comparing the mean with a bound is comparing the sum with the bound
    times the number of samples. *)
Lemma volume_below (l : list Q) (bound : Q) :
  l <> [] ->
  (nan_ltb (volume_of l) bound = true <->
   (sum_abs l < bound * inject_Z (Z.of_nat (List.length l)))%Q).
Proof.
  intros H. pose proof (length_pos l H) as P.
  destruct l as [|x l]; [contradiction |].
  unfold volume_of, nan_ltb. rewrite ltb_true_iff.
  set (n := inject_Z (Z.of_nat (List.length (x :: l)))) in *.
  split; intros L.
  - destruct (Qlt_le_dec (sum_abs (x :: l)) (bound * n)) as [G|G];
      [assumption | exfalso].
    assert (B : (bound <= sum_abs (x :: l) / n)%Q)
      by (now apply Qle_shift_div_l).
    lra.
  - now apply Qlt_shift_div_r.
Qed.

Lemma volume_not_below (l : list Q) (bound : Q) :
  l <> [] ->
  (nan_ltb (volume_of l) bound = false <->
   (bound * inject_Z (Z.of_nat (List.length l)) <= sum_abs l)%Q).
Proof.
  intros H. pose proof (volume_below l bound H) as B.
  destruct (nan_ltb (volume_of l) bound); split; intros G;
    try reflexivity; try discriminate.
  - exfalso. assert (T : true = true) by reflexivity.
    apply B in T. lra.
  - destruct (Qlt_le_dec (sum_abs l)
                (bound * inject_Z (Z.of_nat (List.length l)))) as [L|L];
      [apply B in L; discriminate | assumption].
Qed.

Lemma heard_cases (l : list Q) :
  (heard l = "silent" /\ nan_ltb (volume_of l) (1 # 100) = true) \/
  (heard l = "quiet" /\ nan_ltb (volume_of l) (1 # 100) = false /\
   nan_ltb (volume_of l) (5 # 100) = true) \/
  (heard l = "active" /\ nan_ltb (volume_of l) (1 # 100) = false /\
   nan_ltb (volume_of l) (5 # 100) = false).
Proof.
  unfold heard, check_classroom_audio. cbv zeta.
  destruct (nan_ltb (volume_of l) (1 # 100)); [now left | right].
  destruct (nan_ltb (volume_of l) (5 # 100)); [left | right]; now repeat split.
Qed.

(** X8. A recording that is at least as loud sample by sample is never
    reported as a calmer state: silent, quiet, active only move up. *)
Theorem louder_recording_is_not_calmer (a b : list Q) :
  Forall2 (fun x y => (Qabs x <= Qabs y)%Q) a b ->
  (loudness (heard a) <= loudness (heard b))%nat.
Proof.
  intros F.
  destruct a as [|x a].
  { inversion F; subst. apply Nat.le_refl. }
  assert (Ha : x :: a <> []) by discriminate.
  assert (Hb : b <> []) by (inversion F; discriminate).
  pose proof (sum_abs_le _ _ F) as S.
  assert (L : List.length b = List.length (x :: a))
    by (symmetry; eapply Forall2_length; eassumption).
  pose proof (length_pos _ Ha) as P.
  destruct (heard_cases (x :: a)) as [(Ea & A1) | [(Ea & A1 & A5) | (Ea & A1 & A5)]];
    destruct (heard_cases b) as [(Eb & B1) | [(Eb & B1 & B5) | (Eb & B1 & B5)]];
    rewrite Ea, Eb; try (vm_compute; lia); exfalso;
    repeat match goal with
           | H : nan_ltb _ _ = true |- _ => apply volume_below in H; [| assumption]
           | H : nan_ltb _ _ = false |- _ => apply volume_not_below in H; [| assumption]
           end; rewrite L in *; lra.
Qed.

Lemma louder_recording_is_not_calmer_witness :
  (loudness (heard [1 # 200; 0]%Q) <= loudness (heard [1 # 10; - (1 # 2)]%Q))%nat.
Proof.
  apply (louder_recording_is_not_calmer [1 # 200; 0]%Q [1 # 10; - (1 # 2)]%Q).
  repeat constructor; discriminate.
Defined.

(** X9. Edge cases of [check_classroom_audio]: an empty recording gives
    a volume that is not a number, both comparisons fail and the state is
    active; a recording of any positive length in which every sample is
    0 is silent; an exception of the sound device is not caught. *)
Theorem check_classroom_audio_edges :
  check_classroom_audio (Returned [])
    = Returned ("active", "💬 Active discussion happening") /\
  (forall recording,
     recording <> [] -> Forall (fun x => (x == 0)%Q) recording ->
     check_classroom_audio (Returned recording)
     = Returned ("silent", "⚠️ Dead silence - students may be confused")) /\
  (forall e, check_classroom_audio (Raised e) = Raised e).
Proof.
  split; [reflexivity |]. split; [| reflexivity].
  intros recording H Z.
  unfold check_classroom_audio. cbv zeta.
  assert (T : nan_ltb (volume_of recording) (1 # 100) = true).
  { apply volume_below; [assumption |].
    rewrite (sum_abs_zero recording Z).
    pose proof (length_pos recording H). lra. }
  now rewrite T.
Qed.

(** ** [get_classroom_emotion] *)

Lemma max_from_in {A} (key : A -> nat) (rest : list A) :
  forall best, In (max_from key best rest) (best :: rest).
Proof.
  induction rest as [|x rest IH]; intros best; simpl; [now left |].
  destruct (key best <? key x)%nat.
  - right. apply IH.
  - destruct (IH best) as [H|H]; [now left | right; now right].
Qed.

Lemma max_from_ge_best {A} (key : A -> nat) (rest : list A) :
  forall best, (key best <= key (max_from key best rest))%nat.
Proof.
  induction rest as [|x rest IH]; intros best; simpl; [lia |].
  destruct (Nat.ltb_spec (key best) (key x)).
  - specialize (IH x). lia.
  - apply IH.
Qed.

Lemma max_from_max {A} (key : A -> nat) (rest : list A) :
  forall best x, In x (best :: rest) ->
                 (key x <= key (max_from key best rest))%nat.
Proof.
  induction rest as [|y rest IH]; intros best x H.
  - destruct H as [<-|[]]. simpl. lia.
  - simpl. destruct (Nat.ltb_spec (key best) (key y)).
    + destruct H as [<-|H].
      * pose proof (max_from_ge_best key rest y). lia.
      * now apply IH.
    + destruct H as [<-|[<-|H]].
      * apply max_from_ge_best.
      * pose proof (max_from_ge_best key rest best). lia.
      * apply IH. now right.
Qed.

Lemma count_zero (l : list string) (x : string) :
  ~ In x l -> count l x = 0%nat.
Proof. intros H. unfold count. now apply count_occ_not_In. Qed.

Section Emotion.

(** Iterating over [set(l)] visits exactly the elements of [l], in some
    order. *)
Variable set_iter : list string -> list string.
Hypothesis set_iter_elements : forall l x, In x (set_iter l) <-> In x l.

Lemma dominant_is_mode (frames : list frame) :
  detect frames <> [] ->
  exists e,
    get_classroom_emotion set_iter frames = Returned e /\
    In e (detect frames) /\
    forall x, (count (detect frames) x <= count (detect frames) e)%nat.
Proof.
  intros N. unfold get_classroom_emotion. cbv zeta.
  destruct (detect frames) as [|d l] eqn:D; [contradiction |].
  destruct (set_iter (d :: l)) as [|y ys] eqn:S.
  - exfalso. assert (I : In d (set_iter (d :: l)))
      by (apply set_iter_elements; now left).
    now rewrite S in I.
  - simpl py_max. exists (max_from (count (d :: l)) y ys).
    split; [reflexivity |]. split.
    + apply set_iter_elements. rewrite S. apply max_from_in.
    + intros x. destruct (in_dec string_dec x (d :: l)) as [I|I].
      * apply max_from_max. rewrite <- S. now apply set_iter_elements.
      * rewrite (count_zero _ _ I). lia.
Qed.

(** X10. [get_classroom_emotion] never raises. With no analysed frame
    (none read, or every analysis failed) it returns neutral; otherwise
    it returns one of the detected emotions, and no emotion was detected
    more often than the one returned, in whatever order the set of
    detected emotions is iterated. *)
Theorem dominant_emotion_is_a_mode (frames : list frame) :
  (detect frames = [] ->
     get_classroom_emotion set_iter frames = Returned "neutral") /\
  (detect frames <> [] ->
     exists e,
       get_classroom_emotion set_iter frames = Returned e /\
       In e (detect frames) /\
       forall x, (count (detect frames) x <= count (detect frames) e)%nat) /\
  (exists e, get_classroom_emotion set_iter frames = Returned e).
Proof.
  split; [| split].
  - intros E. unfold get_classroom_emotion. now rewrite E.
  - apply dominant_is_mode.
  - destruct (detect frames) as [|d l] eqn:D.
    + exists "neutral". unfold get_classroom_emotion. now rewrite D.
    + destruct (dominant_is_mode frames) as (e & G & _);
        [rewrite D; discriminate | now exists e].
Qed.

(** X11. When one emotion was detected in strictly more frames than any
    other, that emotion is returned, whatever the iteration order of the
    set. *)
Theorem strict_plurality_wins (frames : list frame) (e : string) :
  In e (detect frames) ->
  (forall x, x <> e ->
     (count (detect frames) x < count (detect frames) e)%nat) ->
  get_classroom_emotion set_iter frames = Returned e.
Proof.
  intros I P.
  destruct (dominant_is_mode frames) as (r & G & _ & M);
    [intros E; now rewrite E in I |].
  rewrite G. f_equal.
  destruct (string_dec r e) as [|N]; [assumption | exfalso].
  specialize (P r N). specialize (M e). lia.
Qed.

(** X12. An iteration of the camera in which no face was analysed is
    scored like one in which the students look happy: the default
    neutral is one of the emotions that add 20. *)
Theorem no_face_scores_as_happy
  (frames : list frame) (audio_state teacher_pace teacher_tone : string) :
  detect frames = [] ->
  exists e,
    get_classroom_emotion set_iter frames = Returned e /\
    engagement e audio_state teacher_pace teacher_tone
    = engagement "happy" audio_state teacher_pace teacher_tone.
Proof.
  intros E. exists "neutral". split; [| reflexivity].
  unfold get_classroom_emotion. now rewrite E.
Qed.

End Emotion.

Lemma dominant_emotion_is_a_mode_witness :
  get_classroom_emotion (nodup string_dec)
    [Analyzed "sad"; NoFrame; Analyzed "happy";
     AnalysisFailed (Exception "no face"); Analyzed "happy"]
  = Returned "happy".
Proof.
  destruct (dominant_emotion_is_a_mode (nodup string_dec)
              (fun l x => nodup_In string_dec l x)
              [Analyzed "sad"; NoFrame; Analyzed "happy";
               AnalysisFailed (Exception "no face"); Analyzed "happy"])
    as (_ & H & _).
  destruct (H ltac:(discriminate)) as (e & G & I & M).
  rewrite G. f_equal.
  destruct I as [<-|[<-|[<-|[]]]]; try reflexivity.
  specialize (M "happy"). vm_compute in M. exfalso. lia.
Defined.

Lemma strict_plurality_wins_witness :
  get_classroom_emotion (nodup string_dec)
    [Analyzed "sad"; Analyzed "happy"; Analyzed "happy"]
  = Returned "happy".
Proof.
  apply (strict_plurality_wins (nodup string_dec)
           (fun l x => nodup_In string_dec l x)).
  - simpl. auto.
  - intros x N.
    destruct (string_dec x "sad") as [->|S]; [vm_compute; lia |].
    rewrite count_zero; [vm_compute; lia |].
    simpl. intros [H|[H|[H|[]]]]; congruence.
Defined.

Lemma no_face_scores_as_happy_witness :
  exists e,
    get_classroom_emotion (nodup string_dec)
      [NoFrame; AnalysisFailed (Exception "no face")] = Returned e /\
    engagement e "quiet" "unknown" "unknown" = 70.
Proof.
  destruct (no_face_scores_as_happy (nodup string_dec)
              [NoFrame; AnalysisFailed (Exception "no face")]
              "quiet" "unknown" "unknown" eq_refl) as (e & G & S).
  exists e. split; [exact G |]. rewrite S. reflexivity.
Defined.

(** ** More on the engagement scorer *)

(** Decide every test of the scorer. *)
Ltac score_cases :=
  unfold engagement, teacher_score, student_score;
  repeat match goal with
         | |- context [if ?b then _ else _] => destruct b eqn:?
         end.

Lemma engagement_range (e a p t : string) : 0 <= engagement e a p t <= 95.
Proof. score_cases; lia. Qed.

Lemma student_score_range (e a : string) : 10 <= student_score e a <= 80.
Proof.
  unfold student_score.
  repeat match goal with
         | |- context [if ?b then _ else _] => destruct b
         end; lia.
Qed.

(** X13. Whatever the four inputs, the score is a multiple of 5 between
    0 and 95: the sum before clamping never exceeds 95, so the upper
    bound 100 of the clamp is never what limits the score. *)
Theorem engagement_score_reach (e a p t : string) :
  0 <= engagement e a p t <= 95 /\
  (5 | engagement e a p t) /\
  engagement e a p t
  = Z.max 0 (50 + emotion_delta e + audio_delta a + pace_delta p + tone_delta t).
Proof.
  split; [apply engagement_range |]. split.
  - score_cases;
      match goal with
      | |- (5 | Z.max 0 (Z.min 100 ?x)) =>
          let v := eval vm_compute in (Z.max 0 (Z.min 100 x)) in
          change (Z.max 0 (Z.min 100 x)) with v;
          let q := eval vm_compute in (v / 5) in
          exists q; reflexivity
      end.
  - rewrite engagement_refines_spec. unfold spec_score.
    rewrite <- clamp_max_min.
    unfold emotion_delta, audio_delta, pace_delta, tone_delta.
    repeat match goal with
           | |- context [if ?b then _ else _] => destruct b
           end; lia.
Qed.

(** X14. When the students look sad, angry or afraid the score is at
    most 55, so the main nudge is never the all-good affirmation,
    whatever the audio and the teacher metrics. *)
Theorem negative_emotion_never_all_good (e a p t : string) :
  In e negative_emotions ->
  engagement e a p t <= 55 /\
  main_nudge (engagement e a p t) <> nudge_all_good.
Proof.
  intros I.
  assert (L : engagement e a p t <= 55).
  { unfold negative_emotions in I. simpl in I.
    destruct I as [<-|[<-|[<-|[]]]]; score_cases; try discriminate; lia. }
  split; [assumption |].
  destruct (main_nudge_cases (engagement e a p t)) as [[H E] | [[H E] | [H E]]];
    rewrite E; try discriminate. lia.
Qed.

Lemma negative_emotion_never_all_good_witness :
  engagement "fear" "active" "good" "engaging" <= 55 /\
  main_nudge (engagement "fear" "active" "good" "engaging") <> nudge_all_good.
Proof.
  apply (negative_emotion_never_all_good "fear"). simpl. auto.
Defined.

(** X15. For fixed student inputs no pace scores higher than good and
    none lower than too_fast, and no tone scores higher than engaging
    and none lower than monotone. *)
Theorem teacher_impact_order (e a p t : string) :
  engagement e a "too_fast" t <= engagement e a p t /\
  engagement e a p t <= engagement e a "good" t /\
  engagement e a p "monotone" <= engagement e a p t /\
  engagement e a p t <= engagement e a p "engaging".
Proof.
  unfold engagement, teacher_score.
  change ("too_fast" =? "too_fast")%string with true.
  change ("good" =? "too_fast")%string with false.
  change ("good" =? "too_slow")%string with false.
  change ("good" =? "good")%string with true.
  change ("monotone" =? "monotone")%string with true.
  change ("engaging" =? "monotone")%string with false.
  change ("engaging" =? "engaging")%string with true.
  cbv iota.
  generalize (student_score e a). intros s.
  destruct (p =? "too_fast")%string, (p =? "too_slow")%string,
    (p =? "good")%string, (t =? "monotone")%string, (t =? "engaging")%string;
    lia.
Qed.

(** ** Invariants of the running system *)

Lemma Forall_update {A} (P : A -> Prop) (l : list A) :
  forall n x, Forall P l -> P x -> Forall P (update n x l).
Proof.
  induction l as [|h l IH]; intros [|n] x F Px; simpl; try assumption;
    inversion F; subst; constructor; auto.
Qed.

Lemma dashboard_ok_status (v : string) (d : dashboard) :
  dashboard_ok d -> dashboard_ok (set_status v d).
Proof. now unfold dashboard_ok. Qed.

Lemma dashboard_ok_speech_nudge (v : string) (d : dashboard) :
  dashboard_ok d -> dashboard_ok (set_speech_nudge v d).
Proof. now unfold dashboard_ok. Qed.

Lemma dashboard_ok_flag (v : bool) (d : dashboard) :
  dashboard_ok d -> dashboard_ok (set_analyzing_speech v d).
Proof. now unfold dashboard_ok. Qed.

Lemma dashboard_ok_students
  (score : Z) (e a : string) (now : Q) (d : dashboard) :
  0 <= score <= 95 -> dashboard_ok d ->
  dashboard_ok (set_students score e a (main_nudge score) now d).
Proof.
  intros R (_ & P & W & T & _). unfold dashboard_ok. simpl.
  repeat split; try assumption; try lia. now right.
Qed.

Lemma dashboard_ok_teacher (r : SpeechResult.t) (d : dashboard) :
  result_ok r -> dashboard_ok d ->
  dashboard_ok
    (set_teacher (SpeechResult.pace r) (SpeechResult.wpm r)
       (SpeechResult.tone r) d).
Proof.
  intros (P & W & T) (S & _ & _ & _ & N). unfold dashboard_ok. simpl.
  repeat split; try assumption; lia.
Qed.

Lemma student_step_well_formed (w : world) (pc : student_pc) (d : dashboard) :
  dashboard_ok d -> student_ok pc ->
  dashboard_ok (snd (student_step w pc d)) /\
  student_ok (fst (student_step w pc d)).
Proof.
  intros D S. destruct pc as [| | |e|e a score|e a score n|x]; simpl.
  - now destruct (analyzing_speech d).
  - split; [now apply dashboard_ok_status | exact I].
  - now destruct (emotion_source w).
  - destruct (audio_source w) as [[a m]|x]; now split.
  - simpl in S. subst score. split; [assumption |].
    split; [apply engagement_range | reflexivity].
  - simpl in S. destruct S as [R ->]. split; [| exact I].
    apply dashboard_ok_status. now apply dashboard_ok_students.
  - split; [now apply dashboard_ok_status | exact I].
Qed.

Lemma speech_step_well_formed (w : world) (pc : speech_pc) (d : dashboard) :
  dashboard_ok d -> task_ok pc ->
  dashboard_ok (snd (speech_step w pc d)) /\
  task_ok (fst (speech_step w pc d)).
Proof.
  intros D T. destruct pc as [| |r|e|]; simpl.
  - split; [| exact I].
    now apply dashboard_ok_speech_nudge, dashboard_ok_status.
  - destruct (teacher_capture w) as [c|e]; simpl; (split; [assumption |]);
      [apply analyze_teacher_speech_ok | exact I].
  - split; [| exact I].
    apply dashboard_ok_flag, dashboard_ok_status, dashboard_ok_speech_nudge.
    now apply dashboard_ok_teacher.
  - split; [| exact I].
    now apply dashboard_ok_flag, dashboard_ok_status, dashboard_ok_speech_nudge.
  - now split.
Qed.

Lemma step_well_formed (w : world) (l : label) (s s' : system) :
  step w l s = Some s' -> well_formed s -> well_formed s'.
Proof.
  intros H (D & S & T). unfold well_formed. destruct l as [| |tid].
  - simpl in H.
    destruct (student_step_well_formed w (student s) (data s) D S) as [D' S'].
    destruct (student_step w (student s) (data s)) as [pc d].
    injection H as <-. simpl in *. split; [assumption | split; assumption].
  - simpl in H. injection H as <-. unfold analyze_speech.
    destruct (analyzing_speech (data s));
      [split; [assumption | split; assumption] |].
    simpl. split; [| split; [assumption |]].
    + now apply dashboard_ok_speech_nudge, dashboard_ok_status,
        dashboard_ok_flag.
    + apply Forall_app. split; [assumption |]. now constructor.
  - apply step_task_inv in H. destruct H as (pc & N & _ & ->).
    assert (P : task_ok pc).
    { apply nth_error_In in N. now apply (proj1 (Forall_forall _ _) T). }
    destruct (speech_step_well_formed w pc (data s) D P) as [D' P'].
    unfold task_moved. simpl. split; [assumption | split; [assumption |]].
    now apply Forall_update.
Qed.

Lemma boot_well_formed (now : Q) : well_formed (boot now).
Proof.
  unfold well_formed, dashboard_ok, boot. simpl.
  repeat split; auto 10; lia.
Qed.

Lemma run_well_formed (sched : list (label * world)) :
  forall s s', run sched s = Some s' -> well_formed s -> well_formed s'.
Proof.
  induction sched as [|[l w] rest IH]; intros s s' H I; simpl in H.
  - now injection H as <-.
  - destruct (step w l s) as [s1|] eqn:E; [| discriminate].
    eapply IH; [eassumption |]. eapply step_well_formed; eassumption.
Qed.

(** X16. In every state the process can reach, under any interleaving of
    the student thread, the triggers and the speech tasks and whatever
    the collaborators return or raise, the record stays within its data
    model: the score is between 0 and 95, teacher_pace is one of the
    eight pace statuses, teacher_wpm is not negative and teacher_tone is
    monotone, engaging or unknown. *)
Theorem snapshot_stays_in_range
  (now : Q) (sched : list (label * world)) (s : system) :
  run sched (boot now) = Some s ->
  0 <= engagement_score (data s) <= 95 /\
  In (teacher_pace (data s)) pace_statuses /\
  0 <= teacher_wpm (data s) /\
  In (teacher_tone (data s)) tone_statuses.
Proof.
  intros R.
  destruct (run_well_formed sched _ _ R (boot_well_formed now))
    as ((S & P & W & T & _) & _).
  now repeat split.
Qed.

Lemma snapshot_stays_in_range_witness :
  exists s,
    run overlapped_iteration (boot 0) = Some s /\
    0 <= engagement_score (data s) <= 95 /\
    In (teacher_pace (data s)) pace_statuses.
Proof.
  eexists. split; [reflexivity |].
  destruct (snapshot_stays_in_range 0 overlapped_iteration _ eq_refl)
    as (S & P & _).
  split; [exact S | exact P].
Defined.

(** X17. In every reachable state the main nudge shown belongs to the
    score shown: either no student iteration has committed yet (the
    start-up prompt with score 50), or the nudge is the one the
    thresholds 40 and 60 select for the score in the same record. *)
Theorem nudge_matches_score
  (now : Q) (sched : list (label * world)) (s : system) :
  run sched (boot now) = Some s ->
  (nudge (data s) = initial_nudge /\ engagement_score (data s) = 50) \/
  nudge (data s) = main_nudge (engagement_score (data s)).
Proof.
  intros R.
  destruct (run_well_formed sched _ _ R (boot_well_formed now))
    as ((_ & _ & _ & _ & N) & _).
  exact N.
Qed.

Lemma nudge_matches_score_witness :
  exists s,
    run failing_iteration (boot 0) = Some s /\
    nudge (data s) = main_nudge (engagement_score (data s)).
Proof.
  eexists. split; [reflexivity |].
  destruct (nudge_matches_score 0 failing_iteration _ eq_refl) as [[N _] | N].
  - discriminate N.
  - exact N.
Defined.

Lemma check_classroom_audio_state (mic : outcome (list Q)) (state message : string) :
  check_classroom_audio mic = Returned (state, message) ->
  In state audio_states.
Proof.
  unfold check_classroom_audio, audio_states. destruct mic as [l|e];
    [| discriminate]. cbv zeta.
  destruct (nan_ltb (volume_of l) (1 # 100));
    [intros H; injection H as <- _; simpl; auto |].
  destruct (nan_ltb (volume_of l) (5 # 100));
    intros H; injection H as <- _; simpl; auto.
Qed.

Lemma step_audio_known (w : world) (l : label) (s s' : system) :
  audio_from_detector w ->
  step w l s = Some s' -> audio_known s -> audio_known s'.
Proof.
  intros [mic A] H [D S]. unfold audio_known. destruct l as [| |tid].
  - simpl in H. destruct (student s) as [| | |e|e a score|e a score n|x];
      simpl in H; try (injection H as <-; simpl; now split).
    + destruct (analyzing_speech (data s)); injection H as <-; now split.
    + destruct (emotion_source w); injection H as <-; now split.
    + destruct (audio_source w) as [[a m]|x].
      * injection H as <-. simpl. split; [assumption |].
        symmetry in A. now apply check_classroom_audio_state in A.
      * injection H as <-. now split.
  - simpl in H. injection H as <-. unfold analyze_speech.
    destruct (analyzing_speech (data s)); now split.
  - apply step_task_inv in H. destruct H as (pc & _ & _ & ->).
    unfold task_moved. simpl. split; [| assumption].
    destruct pc; simpl; try assumption.
    now destruct (teacher_capture w).
Qed.

(** X18. When every audio sample the student thread receives comes from
    [check_classroom_audio], the audio state in the record is silent,
    quiet or active in every reachable state. *)
Theorem audio_state_stays_known
  (now : Q) (sched : list (label * world)) (s : system) :
  Forall (fun a => audio_from_detector (snd a)) sched ->
  run sched (boot now) = Some s ->
  In (audio_state (data s)) audio_states.
Proof.
  intros F R.
  assert (G : forall s0, audio_known s0 -> run sched s0 = Some s -> audio_known s).
  { clear R. induction sched as [|[l w] rest IH]; intros s0 K R.
    - now injection R as <-.
    - rewrite run_cons in R.
      destruct (step w l s0) as [s1|] eqn:E; [| discriminate].
      inversion F; subst.
      apply (IH H2 s1); [| assumption].
      now apply (step_audio_known w l s0 s1). }
  apply (G (boot now)); [| assumption].
  unfold audio_known, audio_states. simpl. auto.
Qed.

Lemma audio_state_stays_known_witness :
  exists s,
    run (repeat (StudentStep, w_happy) 6) (boot 0) = Some s /\
    In (audio_state (data s)) audio_states.
Proof.
  eexists. split; [reflexivity |].
  apply (audio_state_stays_known 0 (repeat (StudentStep, w_happy) 6));
    [| reflexivity].
  repeat constructor;
    exists (Returned [1 # 10; - (1 # 10)]%Q); reflexivity.
Defined.

(** ** A speech cycle and the student iterations around it *)

Lemma run_app (a b : list (label * world)) :
  forall s, run (a ++ b) s
            = match run a s with Some s' => run b s' | None => None end.
Proof.
  induction a as [|[l w] a IH]; intros s; [reflexivity |].
  rewrite <- app_comm_cons, !run_cons.
  destruct (step w l s); [apply IH | reflexivity].
Qed.

(** X19. When a speech task commits its result and the student thread
    then runs one whole iteration, the score of that iteration is
    computed from the pace and tone just committed, the nudge is the one
    for that score, and the teacher fields still hold the committed
    result. *)
Theorem committed_result_feeds_next_score
  (w : world) (s : system) (tid : nat) (r : SpeechResult.t)
  (emotion audio_state audio_message : string) :
  nth_error (tasks s) tid = Some (Committing r) ->
  student s = AtPeek ->
  emotion_source w = Returned emotion ->
  audio_source w = Returned (audio_state, audio_message) ->
  let score :=
    engagement emotion audio_state (SpeechResult.pace r) (SpeechResult.tone r) in
  exists s',
    run ((TaskStep tid, w) :: repeat (StudentStep, w) 6) s = Some s' /\
    engagement_score (data s') = score /\
    nudge (data s') = main_nudge score /\
    teacher_fields (data s')
    = (SpeechResult.pace r, SpeechResult.wpm r, SpeechResult.tone r) /\
    speech_nudge (data s') = SpeechResult.nudge r /\
    analyzing_speech (data s') = false.
Proof.
  intros N P He Ha score.
  rewrite run_cons, (step_task w tid s (Committing r) N eq_refl).
  set (s1 := task_moved w tid (Committing r) s).
  change (repeat (StudentStep, w) 6)
    with (repeat (StudentStep, w) 2 ++ repeat (StudentStep, w) 4)%list.
  rewrite run_app.
  assert (R2 : run (repeat (StudentStep, w) 2) s1
               = Some (mkSystem (set_status "Analyzing students..." (data s1))
                         AtEmotion (tasks s1))).
  { cbn [repeat run step]. unfold s1 at 1 2. unfold task_moved at 1 2.
    cbn [student data]. rewrite P. reflexivity. }
  rewrite R2.
  rewrite (student_iteration_commits w
             (mkSystem (set_status "Analyzing students..." (data s1))
                AtEmotion (tasks s1))
             emotion audio_state audio_message eq_refl He Ha).
  eexists. split; [reflexivity |]. now repeat split.
Qed.

Lemma committed_result_feeds_next_score_witness :
  exists s',
    run ((TaskStep 0, w_happy) :: repeat (StudentStep, w_happy) 6)
      (mkSystem (set_analyzing_speech true (dashboard_data 0)) AtPeek
         [Committing (analyze_teacher_speech lesson)])
      = Some s' /\
    engagement_score (data s') = 90 /\
    teacher_fields (data s') = ("fast", 180, "engaging").
Proof.
  destruct (committed_result_feeds_next_score w_happy
              (mkSystem (set_analyzing_speech true (dashboard_data 0)) AtPeek
                 [Committing (analyze_teacher_speech lesson)])
              0%nat (analyze_teacher_speech lesson)
              "happy" "active" "💬 Active discussion happening"
              eq_refl eq_refl eq_refl eq_refl)
    as (s' & R & S & _ & T & _).
  exists s'. split; [exact R |]. split; [exact S | exact T].
Defined.

Lemma student_step_keeps_phase
  (w : world) (s s' : system) (tid : nat) (c : capture) (k : nat) :
  step w StudentStep s = Some s' -> phase tid c s k -> phase tid c s' k.
Proof.
  intros H Ph.
  destruct (student_step_keeps_speech_fields w s s' H) as [F T].
  assert (B : analyzing_speech (data s') = analyzing_speech (data s)).
  { simpl in H.
    destruct (student_step_frame w (student s) (data s)) as (_ & _ & G).
    destruct (student_step w (student s) (data s)). now injection H as <-. }
  unfold phase in *. rewrite T, F, B. exact Ph.
Qed.

Lemma task_step_advances_phase
  (w : world) (s s' : system) (tid : nat) (c : capture) (k : nat) :
  teacher_capture w = Returned c ->
  step w (TaskStep tid) s = Some s' -> phase tid c s k ->
  exists k', k = S k' /\ phase tid c s' k'.
Proof.
  intros W H Ph. apply step_task_inv in H. destruct H as (pc & N & D & ->).
  assert (U : nth_error (tasks (task_moved w tid pc s)) tid
              = Some (fst (speech_step w pc (data s)))).
  { unfold task_moved. simpl. now apply nth_error_update_same with (y := pc). }
  destruct Ph as [[-> R] | [[-> R] | [-> [R _]]]];
    rewrite N in R; injection R as ->.
  - exists 1%nat. split; [reflexivity |]. right. left.
    split; [reflexivity |]. rewrite U. simpl. now rewrite W.
  - exists 0%nat. split; [reflexivity |]. right. right.
    split; [reflexivity |]. rewrite U. now repeat split.
  - discriminate.
Qed.

Lemma run_reaches_commit (tid : nat) (c : capture) (sched : list (label * world)) :
  forall s s' k,
    phase tid c s k ->
    Forall (student_or_task tid c) sched ->
    count_task tid sched = k ->
    run sched s = Some s' ->
    phase tid c s' 0.
Proof.
  induction sched as [|[l w] rest IH]; intros s s' k Ph F C R.
  - injection R as <-. unfold count_task in C. simpl in C. now subst k.
  - rewrite run_cons in R.
    destruct (step w l s) as [s1|] eqn:E; [| discriminate].
    apply Forall_cons_iff in F. destruct F as [A F'].
    unfold count_task in C. cbn [filter] in C.
    destruct A as [A | [A W]]; simpl in A; subst l.
    + assert (O : is_step_of tid (StudentStep, w) = false) by reflexivity.
      rewrite O in C.
      apply (IH s1 s' k); try assumption.
      now apply (student_step_keeps_phase w s s1).
    + simpl in W.
      assert (O : is_step_of tid (TaskStep tid, w) = true)
        by (unfold is_step_of; cbn [fst]; apply Nat.eqb_refl).
      rewrite O in C. cbn [List.length] in C.
      destruct (task_step_advances_phase w s s1 tid c k W E Ph)
        as (k' & K & Ph').
      apply (IH s1 s' k'); try assumption.
      unfold count_task. lia.
Qed.

(** X20. Once a speech task is recording, however the steps of the
    student thread are interleaved with its two remaining steps, the
    record ends with exactly the pace, wpm, tone and nudge of the
    analysis result, the busy flag cleared and the task done: the
    student thread cannot alter what a speech cycle commits. *)
Theorem speech_result_survives_student_steps
  (sched : list (label * world)) (s s' : system) (tid : nat) (c : capture) :
  nth_error (tasks s) tid = Some Recording ->
  Forall (student_or_task tid c) sched ->
  count_task tid sched = 2%nat ->
  run sched s = Some s' ->
  speech_fields (data s') = committed (analyze_teacher_speech c) /\
  analyzing_speech (data s') = false /\
  nth_error (tasks s') tid = Some Done.
Proof.
  intros N F C R.
  assert (Ph : phase tid c s 2) by (left; now split).
  destruct (run_reaches_commit tid c sched s s' 2 Ph F C R)
    as [[K _] | [[K _] | (_ & D & S & B)]]; try discriminate.
  now repeat split.
Qed.

Lemma speech_result_survives_student_steps_witness :
  exists s',
    run [(StudentStep, w_happy); (TaskStep 0, w_happy); (StudentStep, w_happy);
         (StudentStep, w_happy); (TaskStep 0, w_happy); (StudentStep, w_happy)]
      (mkSystem (set_analyzing_speech true (dashboard_data 0)) AtStatus
         [Recording]) = Some s' /\
    speech_fields (data s') = committed (analyze_teacher_speech lesson) /\
    analyzing_speech (data s') = false.
Proof.
  match goal with
  | |- exists s', ?r = Some s' /\ _ => destruct r as [s'|] eqn:R
  end; [| vm_compute in R; discriminate R].
  exists s'. split; [reflexivity |].
  destruct (speech_result_survives_student_steps
              [(StudentStep, w_happy); (TaskStep 0, w_happy);
               (StudentStep, w_happy); (StudentStep, w_happy);
               (TaskStep 0, w_happy); (StudentStep, w_happy)]
              (mkSystem (set_analyzing_speech true (dashboard_data 0)) AtStatus
                 [Recording])
              s' 0%nat lesson eq_refl
              ltac:(repeat constructor; solve [now left | right; now split])
              eq_refl R) as (S & B & _).
  split; [exact S | exact B].
Defined.

(** ** Unintelligible speech *)

(** X21. When the recording succeeds but the recogniser cannot
    understand it, [analyze_teacher_speech] reports pace unclear with
    wpm 0, and its nudge is the microphone-check message, followed by
    whatever the tone analysis of the same recording adds. *)
Theorem unintelligible_speech_asks_for_microphone (c : capture) :
  record_audio c = Returned tt ->
  recognize c = Raised UnknownValueError ->
  let r := analyze_teacher_speech c in
  SpeechResult.pace r = "unclear" /\
  SpeechResult.wpm r = 0 /\
  SpeechResult.tone r = ToneResult.status (_analyze_tone c) /\
  SpeechResult.nudge r
  = join " | "
      ("⚠️ Could not analyze speech - please speak more clearly or check your microphone."
       :: monotone_nudges (_analyze_tone c) ++ energy_nudges (_analyze_tone c)).
Proof.
  intros R U r.
  assert (P : _analyze_pace c = PaceResult.mk "unclear" 0 0).
  { unfold _analyze_pace. rewrite analyze_pace_body_result, U. reflexivity. }
  unfold r, analyze_teacher_speech. rewrite R. cbv zeta.
  cbn [SpeechResult.pace SpeechResult.wpm SpeechResult.tone SpeechResult.nudge].
  rewrite P. repeat split.
Qed.

Lemma unintelligible_speech_asks_for_microphone_witness :
  SpeechResult.nudge
    (analyze_teacher_speech
       (mkCapture (Returned tt) (Raised UnknownValueError)
          (Returned (mkLoaded 160000 16000))
          (Returned (mkFeatures (1 # 100) 0 0 0))))
  = "⚠️ Could not analyze speech - please speak more clearly or check your microphone."
    ++ " | " ++ "📉 Your tone sounds monotonous. Try varying your pitch and enthusiasm!"
    ++ " | " ++ "🔇 You're speaking too quietly. Increase your volume or check your microphone.".
Proof.
  destruct (unintelligible_speech_asks_for_microphone
              (mkCapture (Returned tt) (Raised UnknownValueError)
                 (Returned (mkLoaded 160000 16000))
                 (Returned (mkFeatures (1 # 100) 0 0 0)))
              eq_refl eq_refl) as (_ & _ & _ & H).
  rewrite H. reflexivity.
Defined.
